(** * parse_pool_metrics: a shallow embedding of [parse_pool_metrics.py]

    The development follows the source file top to bottom: the string
    primitives the script takes from Python ([str.strip], [str.split],
    [in], [str.lower], and the four regular expressions it uses), then
    [extract_timestamp], [parse_pool_line],
    [find_pool_statistics_sections], [filter_pools] and [main].

    Modelling conventions.
    - A Python [str] is a [string]; characters are bytes ([ascii]), which
      covers the ASCII text of the logs the script is written for.
    - A record dictionary (always built with the same ten keys) is the
      record [pool].
    - Indices are Python integers, here [Z]; [lines[j]] is [get lines j].
    - [while] loops are run by [while] with one more unit of fuel than
      the file has lines; running out of fuel is [None], and the totality
      lemmas show that it does not happen.
    - The process state touched by [main] (standard error, the CSV file
      it opens, the exit status) is the record [outcome].  [main] is
      modelled from the point where [parse_args] has returned: a command
      line that [argparse] refuses, or that asks for the help text, ends
      the program inside [parse_args] (with status 2, or 0) before any of
      the code below runs, and has no value of [args].
    - Opening the output file can fail; the exception is not caught, so
      the interpreter prints it and the program ends with status 1. *)

From Stdlib Require Import ZArith Ascii String List Lia Bool.
From stdpp Require Import base decidable option list sorting gmap strings pretty.

Local Open Scope string_scope.
Local Open Scope Z_scope.

(** ** Python string primitives *)

Module Py.

(** [str.isspace] on one ASCII character, which is also what [\s]
    matches in a [str] pattern: TAB, LF, VT, FF, CR, FS, GS, RS, US and
    the space. *)
Definition is_space (c : ascii) : bool :=
  let n := N_of_ascii c in
  ((9 <=? n)%N && (n <=? 13)%N) || ((28 <=? n)%N && (n <=? 32)%N).

(** [\d] on one ASCII character. *)
Definition is_digit (c : ascii) : bool :=
  let n := N_of_ascii c in (48 <=? n)%N && (n <=? 57)%N.

Definition chars (s : string) : list ascii := list_ascii_of_string s.
Definition str (l : list ascii) : string := string_of_list_ascii l.

Fixpoint lstrip_chars (l : list ascii) : list ascii :=
  match l with
  | c :: l' => if is_space c then lstrip_chars l' else l
  | [] => []
  end.

Definition rstrip_chars (l : list ascii) : list ascii :=
  rev (lstrip_chars (rev l)).

Definition strip_chars (l : list ascii) : list ascii :=
  rstrip_chars (lstrip_chars l).

(** [s.strip()] *)
Definition strip (s : string) : string := str (strip_chars (chars s)).

(** [s.split()]: the maximal runs of non-whitespace characters.
    [cur] is the word being read, reversed, if any. *)
Fixpoint split_ws_go (cur : option (list ascii)) (l : list ascii)
  : list (list ascii) :=
  match l with
  | [] => match cur with Some w => [rev w] | None => [] end
  | c :: l' =>
      if is_space c then
        match cur with
        | Some w => rev w :: split_ws_go None l'
        | None => split_ws_go None l'
        end
      else
        split_ws_go (Some (c :: match cur with Some w => w | None => [] end)) l'
  end.

Definition split_ws (s : string) : list string :=
  map str (split_ws_go None (chars s)).

(** [re.split(r'\s{2,}', s)].  A separator is a maximal run of at least
    two whitespace characters (the quantifier is greedy and the scan is
    leftmost, so a run of two or more is always taken whole); a single
    whitespace character stays inside its token.  The scanner is in one
    of three states. *)
Inductive gap_state :=
| InToken (cur : list ascii)             (* reading a token, reversed *)
| OneSpace (cur : list ascii) (w : ascii) (* one whitespace seen after [cur] *)
| InGap.                                 (* inside a separator *)

Fixpoint wide_split_go (st : gap_state) (l : list ascii)
  : list (list ascii) :=
  match l with
  | [] =>
      match st with
      | InToken cur => [rev cur]
      | OneSpace cur w => [rev (w :: cur)]
      | InGap => [[]]
      end
  | c :: l' =>
      match st with
      | InToken cur =>
          if is_space c then wide_split_go (OneSpace cur c) l'
          else wide_split_go (InToken (c :: cur)) l'
      | OneSpace cur w =>
          if is_space c then rev cur :: wide_split_go InGap l'
          else wide_split_go (InToken (c :: w :: cur)) l'
      | InGap =>
          if is_space c then wide_split_go InGap l'
          else wide_split_go (InToken [c]) l'
      end
  end.

Definition wide_split (s : string) : list string :=
  map str (wide_split_go (InToken []) (chars s)).

(** [f.readlines()] on a file opened in text mode: the text is cut after
    each line ending, and the endings CR LF and CR are read as LF. *)
Definition LF : ascii := "010"%char.
Definition CR : ascii := "013"%char.

Fixpoint readlines_go (cur : list ascii) (l : list ascii)
  : list (list ascii) :=
  match l with
  | [] => match cur with [] => [] | _ :: _ => [rev cur] end
  | c :: l' =>
      if Ascii.eqb c LF then rev (LF :: cur) :: readlines_go [] l'
      else if Ascii.eqb c CR then
        match l' with
        | c' :: l'' =>
            if Ascii.eqb c' LF then rev (LF :: cur) :: readlines_go [] l''
            else rev (LF :: cur) :: readlines_go [] l'
        | [] => [rev (LF :: cur)]
        end
      else readlines_go (c :: cur) l'
  end.

Definition readlines (content : string) : list string :=
  map str (readlines_go [] (chars content)).

(** [s.split(',')]: split at every comma, empty pieces kept. *)
Fixpoint split_on_go (sep : ascii) (cur : list ascii) (l : list ascii)
  : list (list ascii) :=
  match l with
  | [] => [rev cur]
  | c :: l' =>
      if Ascii.eqb c sep then rev cur :: split_on_go sep [] l'
      else split_on_go sep (c :: cur) l'
  end.

Definition split_on (sep : ascii) (s : string) : list string :=
  map str (split_on_go sep [] (chars s)).

(** [needle in s] *)
Fixpoint contains (needle s : string) : bool :=
  String.prefix needle s ||
  match s with
  | EmptyString => false
  | String _ s' => contains needle s'
  end.

(** [s.lower()] on ASCII text. *)
Definition lower_char (c : ascii) : ascii :=
  let n := N_of_ascii c in
  if (65 <=? n)%N && (n <=? 90)%N then ascii_of_N (n + 32) else c.

Definition lower (s : string) : string := str (map lower_char (chars s)).

(** [sep.join(l)] *)
Fixpoint join (sep : string) (l : list string) : string :=
  match l with
  | [] => ""
  | [x] => x
  | x :: l' => x ++ sep ++ join sep l'
  end.

(** Truth value of a [str] and of an [Optional[str]]. *)
Definition truthy (s : string) : bool := negb (String.eqb s "").
Definition truthy_opt (o : option string) : bool :=
  match o with Some s => truthy s | None => false end.

(** *** The regular expressions of the script *)

(** One position of a fixed-width pattern. *)
Inductive cls := D | L (c : ascii).

Definition cls_ok (k : cls) (c : ascii) : bool :=
  match k with D => is_digit c | L c' => Ascii.eqb c c' end.

(** The pattern matches at the start of [l]; the match is returned. *)
Fixpoint match_here (p : list cls) (l : list ascii) : option (list ascii) :=
  match p with
  | [] => Some []
  | k :: p' =>
      match l with
      | c :: l' =>
          if cls_ok k c then option_map (cons c) (match_here p' l')
          else None
      | [] => None
      end
  end.

(** [re.search]: leftmost match. *)
Fixpoint search (p : list cls) (l : list ascii) : option (list ascii) :=
  match match_here p l with
  | Some m => Some m
  | None => match l with [] => None | _ :: l' => search p l' end
  end.

Definition digits (n : nat) : list cls := repeat D n.
Definition lit (c : ascii) : list cls := [L c].

(** [\d{4}-\d{2}-\d{2}] *)
Definition date_pattern : list cls :=
  (digits 4 ++ lit "-" ++ digits 2 ++ lit "-" ++ digits 2)%list.

(** [(\d{4}-\d{2}-\d{2} \d{2}:\d{2}:\d{2},\d{3})] *)
Definition timestamp_pattern : list cls :=
  (date_pattern ++ lit " " ++ digits 2 ++ lit ":" ++ digits 2 ++ lit ":"
     ++ digits 2 ++ lit "," ++ digits 3)%list.

(** [re.match(r'^\d{4}-\d{2}-\d{2}', s)] as a truth value. *)
Definition starts_with_date (s : string) : bool :=
  match match_here date_pattern (chars s) with Some _ => true | None => false end.

(** [re.match(r'^(INFO|WARN|ERROR|DEBUG)', s)] as a truth value. *)
Definition starts_with_level (s : string) : bool :=
  String.prefix "INFO" s || String.prefix "WARN" s
  || String.prefix "ERROR" s || String.prefix "DEBUG" s.

End Py.

(** ** [extract_timestamp] *)

Definition extract_timestamp (line : string) : option string :=
  option_map Py.str (Py.search Py.timestamp_pattern (Py.chars line)).

(** ** [parse_pool_line] *)

Record pool := mk_pool {
  pool_name : string;
  active : string;
  pending : string;
  backpressure : string;
  delayed : string;
  shared : string;
  stolen : string;
  completed : string;
  blocked : string;
  all_time_blocked : string
}.

(** [columns[k]]; every use below is guarded by a length test. *)
Definition col (columns : list string) (k : nat) : string := nth k columns "".

Definition parse_pool_line (line : string) : option pool :=
  let parts := Py.split_ws (Py.strip line) in
  if (Z.of_nat (length parts) <? 6) then None
  else
    let columns := Py.wide_split (Py.strip line) in
    if (Z.of_nat (length columns) <? 6) then None
    else if (Z.of_nat (length columns) >=? 10) then
      Some {| pool_name := Py.strip (col columns 0);
              active := Py.strip (col columns 1);
              pending := Py.strip (col columns 2);
              backpressure := Py.strip (col columns 3);
              delayed := Py.strip (col columns 4);
              shared := Py.strip (col columns 5);
              stolen := Py.strip (col columns 6);
              completed := Py.strip (col columns 7);
              blocked := Py.strip (col columns 8);
              all_time_blocked := Py.strip (col columns 9) |}
    else
      Some {| pool_name := Py.strip (col columns 0);
              active := Py.strip (col columns 1);
              pending := Py.strip (col columns 2);
              backpressure := "0";
              delayed := "0";
              shared := "0";
              stolen := "0";
              completed := Py.strip (col columns 3);
              blocked := Py.strip (col columns 4);
              all_time_blocked := Py.strip (col columns 5) |}.

(** ** [find_pool_statistics_sections] *)

(** The result of opening and reading a file: the text of the exception,
    or the text of the file. *)
Inductive read_result :=
| ReadError (e : string)
| ReadOk (content : string).

(** The files the script can see, by path: what opening and reading a
    path gives, and what [open(path, 'w')] does, [None] when the file is
    opened (created or emptied) and otherwise the text the interpreter
    prints for the exception that [open] raises. *)
Record filesystem := mk_fs {
  read_file : string -> read_result;
  open_for_writing : string -> option string
}.

(** [fs file_path] reads the file. *)
Coercion read_file : filesystem >-> Funclass.

(** A section: [(timestamp, pool_data)]. *)
Definition section : Type := string * list pool.

(** [len(lines)] and [lines[j]]; every access below is guarded so that
    [0 <= j < len(lines)]. *)
Definition len {A} (l : list A) : Z := Z.of_nat (length l).
Definition get (lines : list string) (j : Z) : string :=
  nth (Z.to_nat j) lines "".

(** A [while] loop whose body may [break].  The body can itself run
    loops, so it may run out of fuel too. *)
Inductive ctl (S : Type) :=
| Continue (s : S)
| Break (s : S).
Arguments Continue {S} s.
Arguments Break {S} s.

Fixpoint while {S : Type} (fuel : nat) (cond : S -> bool)
    (body : S -> option (ctl S)) (s : S) : option S :=
  match fuel with
  | O => None
  | Datatypes.S fuel' =>
      if cond s then
        match body s with
        | Some (Continue s') => while fuel' cond body s'
        | Some (Break s') => Some s'
        | None => None
        end
      else Some s
  end.

(** Every loop below moves an index by one through [lines] at each turn,
    so one more turn than there are lines is enough. *)
Definition fuel_for (lines : list string) : nat := Datatypes.S (length lines).

(** The test the script repeats three times:
    [not l or re.match(r'^\d{4}-\d{2}-\d{2}', l)
           or re.match(r'^(INFO|WARN|ERROR|DEBUG)', l)]. *)
Definition starts_entry (l : string) : bool :=
  negb (Py.truthy l) || Py.starts_with_date l || Py.starts_with_level l.

(** The header test:
    ["Pool Name" in line and "Active" in line and "Pending" in line]. *)
Definition is_header (line : string) : bool :=
  Py.contains "Pool Name" line && Py.contains "Active" line
  && Py.contains "Pending" line.

Definition marker : string := "StatusLogger.java".

(** Lines 97-104: the line before the header. *)
Definition timestamp_before (lines : list string) (i : Z) : option string :=
  if i >? 0 then
    let prev_line := Py.strip (get lines (i - 1)) in
    if Py.contains marker prev_line then extract_timestamp prev_line
    else None
  else None.

(** Lines 108-117: the loop over [j], with state [(j, timestamp)]. *)
Definition ts_cond (lines : list string) (i : Z) (st : Z * option string)
  : bool :=
  (fst st <? len lines) && (fst st <? i + 10).

Definition ts_body (lines : list string) (st : Z * option string)
  : option (ctl (Z * option string)) :=
  let '(j, timestamp) := st in
  let check_line := Py.strip (get lines j) in
  if Py.contains marker check_line then
    Some (Break (j, extract_timestamp check_line))
  else if starts_entry check_line then Some (Break (j, timestamp))
  else Some (Continue (j + 1, timestamp)).

(** Lines 97-117: the timestamp of the header at [i], if any. *)
Definition resolve_timestamp (lines : list string) (i : Z)
  : option (option string) :=
  let timestamp := timestamp_before lines i in
  if negb (Py.truthy_opt timestamp) then
    option_map snd
      (while (fuel_for lines) (ts_cond lines i) (ts_body lines) (i + 1, timestamp))
  else Some timestamp.

(** Lines 131-143 and 151-163: what the collection loops do with one
    line: stop ([None]) or take a record. *)
Definition data_line (l : string) : option pool :=
  let data_line := Py.strip l in
  if starts_entry data_line then None else parse_pool_line data_line.

(** Lines 129-145: the loop over [j], with state [(j, pool_data)]. *)
Definition fwd_cond (lines : list string) (st : Z * list pool) : bool :=
  fst st <? len lines.

Definition fwd_body (lines : list string) (st : Z * list pool)
  : option (ctl (Z * list pool)) :=
  let '(j, pool_data) := st in
  match data_line (get lines j) with
  | Some pool_info => Some (Continue (j + 1, (pool_data ++ [pool_info])%list))
  | None => Some (Break (j, pool_data))
  end.

Definition collect_forward (lines : list string) (i : Z)
  : option (list pool) :=
  option_map snd
    (while (fuel_for lines) (fwd_cond lines) (fwd_body lines) (i + 1, [])).

(** Lines 149-165: the loop over [j] going down. *)
Definition bwd_cond (st : Z * list pool) : bool := fst st >=? 0.

Definition bwd_body (lines : list string) (st : Z * list pool)
  : option (ctl (Z * list pool)) :=
  let '(j, pool_data) := st in
  match data_line (get lines j) with
  | Some pool_info => Some (Continue (j - 1, pool_info :: pool_data))
  | None => Some (Break (j, pool_data))
  end.

Definition collect_backward (lines : list string) (i : Z)
    (pool_data : list pool) : option (list pool) :=
  option_map snd
    (while (fuel_for lines) bwd_cond (bwd_body lines) (i - 1, pool_data)).

(** Lines 126-165. *)
Definition collect_pool_data (lines : list string) (i : Z)
  : option (list pool) :=
  match collect_forward lines i with
  | Some pool_data =>
      match pool_data with
      | [] => collect_backward lines i pool_data
      | _ :: _ => Some pool_data
      end
  | None => None
  end.

(** The state of the outer loop: the index, the sections found so far
    and what was printed on standard error. *)
Record scan_state := mk_scan {
  idx : Z;
  sections : list section;
  errs : list string
}.

Definition no_timestamp_message (file_path : string) (i : Z) : string :=
  "Error: No timestamp found for pool statistics section at line "
  ++ pretty (i + 1) ++ " in " ++ file_path.

Definition scan_cond (lines : list string) (st : scan_state) : bool :=
  idx st <? len lines.

(** Lines 92-172: one turn of the outer loop. *)
Definition scan_body (file_path : string) (lines : list string)
    (st : scan_state) : option (ctl scan_state) :=
  let i := idx st in
  let line := Py.strip (get lines i) in
  if is_header line then
    match resolve_timestamp lines i with
    | None => None
    | Some timestamp =>
        match timestamp with
        | Some ts =>
            if Py.truthy ts then
              match collect_pool_data lines i with
              | None => None
              | Some pool_data =>
                  match pool_data with
                  | _ :: _ =>
                      Some (Continue (mk_scan (i + 1)
                              (sections st ++ [(ts, pool_data)])%list (errs st)))
                  | [] => Some (Continue (mk_scan (i + 1) (sections st) (errs st)))
                  end
              end
            else
              Some (Continue (mk_scan (i + 1) (sections st)
                      (errs st ++ [no_timestamp_message file_path i])%list))
        | None =>
            Some (Continue (mk_scan (i + 1) (sections st)
                    (errs st ++ [no_timestamp_message file_path i])%list))
        end
    end
  else Some (Continue (mk_scan (i + 1) (sections st) (errs st))).

(** Lines 90-174 on the lines of one file. *)
Definition scan_lines (file_path : string) (lines : list string)
  : option scan_state :=
  while (fuel_for lines) (scan_cond lines) (scan_body file_path lines)
    (mk_scan 0 [] []).

(** The function: the sections, and what it printed on standard error. *)
Definition find_pool_statistics_sections (fs : filesystem)
    (file_path : string) : option (list section * list string) :=
  match fs file_path with
  | ReadError e =>
      Some ([], ["Error reading file " ++ file_path ++ ": " ++ e])
  | ReadOk content =>
      let lines := Py.readlines content in
      option_map (fun st => (sections st, errs st))
        (scan_lines file_path lines)
  end.

(** ** [filter_pools] *)

Definition filter_pools (pool_data : list pool) (target_pools : list string)
  : list pool :=
  match target_pools with
  | [] => pool_data
  | _ :: _ =>
      let target_pools_lower := map Py.lower target_pools in
      filter (fun pool => Py.lower (pool_name pool) ∈ target_pools_lower)
        pool_data
  end.

(** ** [main] *)

(** The parsed command line, as [parse_args] returns it. *)
Record args := mk_args {
  files : list string;
  pools : option string;
  metrics : option string;
  output : option string
}.

(** What a run leaves behind: the exit status, the lines printed on
    standard error, and the file opened for writing, if one was, with the
    rows handed to [csv.writer] (opening with mode ['w'] creates the file,
    or empties it, before any row is written).  A run that ends by an
    exception that is not caught has status 1 and the text of the
    exception last on standard error. *)
Record outcome := mk_outcome {
  status : Z;
  stderr : list string;
  out_file : option (string * list (list string))
}.

(** [[x.strip() for x in s.split(',') if x.strip()]] *)
Definition comma_list (s : string) : list string :=
  map Py.strip
    (List.filter (fun x => Py.truthy (Py.strip x)) (Py.split_on "," s)).

Definition valid_columns : list string :=
  ["Active"; "Pending"; "Backpressure"; "Delayed"; "Shared"; "Stolen";
   "Completed"; "Blocked"; "All_Time_Blocked"].

(** [pool[column_mapping[col]]]; [col] is one of [valid_columns] wherever
    this is used, the last branch is never taken. *)
Definition metric (col : string) (p : pool) : string :=
  if String.eqb col "Active" then active p
  else if String.eqb col "Pending" then pending p
  else if String.eqb col "Backpressure" then backpressure p
  else if String.eqb col "Delayed" then delayed p
  else if String.eqb col "Shared" then shared p
  else if String.eqb col "Stolen" then stolen p
  else if String.eqb col "Completed" then completed p
  else if String.eqb col "Blocked" then blocked p
  else if String.eqb col "All_Time_Blocked" then all_time_blocked p
  else "".

(** Lines 227-230: the sections of all files, and the diagnostics. *)
Fixpoint collect_sections (fs : filesystem)
    (file_paths : list string) : option (list section * list string) :=
  match file_paths with
  | [] => Some ([], [])
  | file_path :: rest =>
      match find_pool_statistics_sections fs file_path with
      | None => None
      | Some (secs, e1) =>
          match collect_sections fs rest with
          | None => None
          | Some (all_sections, e2) =>
              Some ((secs ++ all_sections)%list, (e1 ++ e2)%list)
          end
      end
  end.

(** Lines 265-277: row mode. *)
Definition row_header (selected_columns : list string) : list string :=
  ("timestamp" :: "pool_name" :: map Py.lower selected_columns).

Definition row_rows (selected_columns : list string)
    (all_sections : list section) : list (list string) :=
  flat_map (fun '(timestamp, pool_data) =>
    map (fun pool =>
           timestamp :: pool_name pool
             :: map (fun col => metric col pool) selected_columns)
        pool_data) all_sections.

(** Lines 281-285: the set of names that pass the filter. *)
Definition matched_names (target_pools : list string)
    (all_sections : list section) : gset string :=
  foldl (fun all_pool_names '(timestamp, pool_data) =>
           foldl (fun names pool => names ∪ {[pool_name pool]})
             all_pool_names (filter_pools pool_data target_pools))
        ∅ all_sections.

(** [sorted(all_pool_names)] *)
Definition sorted (names : gset string) : list string :=
  merge_sort String.le (elements names).

(** Lines 292-295. *)
Definition pivot_header (selected_columns : list string)
    (names : list string) : list string :=
  "timestamp"
    :: flat_map (fun pool_name =>
                   map (fun col => pool_name ++ "-" ++ col) selected_columns)
         names.

(** Line 304: [{pool['pool_name']: pool for pool in filtered_pools}];
    a later record replaces an earlier one under the same key. *)
Definition pool_dict_of (filtered_pools : list pool) : gmap string pool :=
  foldl (fun d pool => <[pool_name pool := pool]> d) ∅ filtered_pools.

(** Lines 308-315: the cells of one name in the row of one section. *)
Definition pivot_cells (selected_columns : list string)
    (pool_dict : gmap string pool) (pool_name : string) : list string :=
  match pool_dict !! pool_name with
  | Some pool => map (fun col => metric col pool) selected_columns
  | None => replicate (length selected_columns) "N/A"
  end.

(** Lines 300-317: the row of one section. *)
Definition pivot_row (selected_columns target_pools names : list string)
    (sec : section) : list string :=
  let '(timestamp, pool_data) := sec in
  let filtered_pools := filter_pools pool_data target_pools in
  let pool_dict := pool_dict_of filtered_pools in
  timestamp :: flat_map (pivot_cells selected_columns pool_dict) names.

(** Lines 208-210. *)
Definition target_pools_of (a : args) : list string :=
  match pools a with
  | Some p => if Py.truthy p then comma_list p else []
  | None => []
  end.

(** Lines 216-217: the requested columns, when [--metrics] is given. *)
Definition requested_columns_of (a : args) : option (list string) :=
  match metrics a with
  | Some m => if Py.truthy m then Some (comma_list m) else None
  | None => None
  end.

(** Line 219. *)
Definition invalid_columns_of (a : args) : list string :=
  match requested_columns_of a with
  | Some requested_columns =>
      List.filter (fun col => negb (bool_decide (col ∈ valid_columns)))
        requested_columns
  | None => []
  end.

(** Lines 214 and 224. *)
Definition selected_columns_of (a : args) : list string :=
  match requested_columns_of a with
  | Some requested_columns => requested_columns
  | None => valid_columns
  end.

(** Lines 250-257: the path opened for writing and what is printed once
    it is open. *)
Definition open_output (now : string) (a : args) : string * list string :=
  let default_filename := "pool_metrics_" ++ now ++ ".csv" in
  match output a with
  | Some o =>
      if Py.truthy o then (o, [])
      else (default_filename, ["Output will be saved to: " ++ default_filename])
  | None => (default_filename, ["Output will be saved to: " ++ default_filename])
  end.

(** [now] is [datetime.now().strftime("%Y%m%d_%H%M%S")]. *)
Definition main (fs : filesystem) (now : string) (a : args) : option outcome :=
  let target_pools := target_pools_of a in
  let invalid_columns := invalid_columns_of a in
  match invalid_columns with
  | _ :: _ =>
      Some (mk_outcome 1
              ["Error: Invalid columns specified: " ++ Py.join ", " invalid_columns;
               "Valid columns are: " ++ Py.join ", " valid_columns]
              None)
  | [] =>
      let selected_columns := selected_columns_of a in
      match collect_sections fs (files a) with
      | None => None
      | Some (all_sections, e) =>
          match all_sections with
          | [] =>
              Some (mk_outcome 1
                      (e ++ ["No pool statistics found in the provided files."])%list
                      None)
          | _ :: _ =>
              let '(path, e_open) := open_output now a in
              match open_for_writing fs path with
              | Some exception => Some (mk_outcome 1 (e ++ [exception])%list None)
              | None =>
              let e := (e ++ e_open)%list in
              match target_pools with
              | [] =>
                  Some (mk_outcome 0 e
                          (Some (path, row_header selected_columns
                                         :: row_rows selected_columns all_sections)))
              | _ :: _ =>
                  let all_pool_names := matched_names target_pools all_sections in
                  if bool_decide (all_pool_names = ∅) then
                    Some (mk_outcome 1
                            (e ++ ["No matching pools found for the specified filters."])%list
                            (Some (path, [])))
                  else
                    let names := sorted all_pool_names in
                    Some (mk_outcome 0 e
                            (Some (path,
                                   pivot_header selected_columns names
                                     :: map (pivot_row selected_columns
                                               target_pools names)
                                          all_sections)))
              end
              end
          end
      end
  end.

(** The record a name's cells are taken from, in the words of the
    specification: the last record of the list that carries the name. *)
Definition last_named (name : string) (records : list pool) : option pool :=
  last (filter (fun r => pool_name r = name) records).

(** ** Predicates used in the statements *)

(** The text does not end in whitespace. *)
Definition ends_nonspace (t : list ascii) : Prop :=
  match last t with
  | Some c => Py.is_space c = false
  | None => True
  end.

(** A line the forward scan for the timestamp passes over: it has no
    marker and does not stop the scan. *)
Definition passed_over (l : string) : Prop :=
  Py.contains marker (Py.strip l) = false
  /\ starts_entry (Py.strip l) = false.

(** The text is one match of the timestamp pattern, from its first
    character to its last. *)
Definition timestamp_shape (ts : string) : Prop :=
  Py.match_here Py.timestamp_pattern (Py.chars ts) = Some (Py.chars ts).

(** The characters are not empty and neither start nor end with
    whitespace. *)
Definition trimmed (tok : list ascii) : Prop :=
  match tok with c :: _ => Py.is_space c = false | [] => False end
  /\ match last tok with Some c => Py.is_space c = false | None => False end.

(** A field as [parse_pool_line] stores it: not empty, and stripping it
    changes nothing. *)
Definition clean (field : string) : Prop :=
  field <> "" /\ Py.strip field = field.

(** The ten fields of a record, in the order of the long form. *)
Definition fields (r : pool) : list string :=
  [pool_name r; active r; pending r; backpressure r; delayed r; shared r;
   stolen r; completed r; blocked r; all_time_blocked r].

(** The number of header lines among [lines]. *)
Definition header_count (lines : list string) : nat :=
  length (filter (fun l => is_header (Py.strip l) = true) lines).

(** The record was read from a line of [lines]. *)
Definition record_from (lines : list string) (r : pool) : Prop :=
  exists l, l ∈ lines /\ data_line l = Some r.

(** The timestamp was extracted from a line of [lines] with the marker. *)
Definition timestamp_from (lines : list string) (ts : string) : Prop :=
  exists l, l ∈ lines /\ Py.contains marker (Py.strip l) = true
            /\ extract_timestamp (Py.strip l) = Some ts.

(** The section was read from [lines]: its timestamp has the form of the
    pattern and comes from a line with the marker, and its records come
    from lines. *)
Definition section_from (lines : list string) (sec : section) : Prop :=
  String.length (fst sec) = 23%nat /\ timestamp_shape (fst sec)
  /\ timestamp_from lines (fst sec)
  /\ Forall (record_from lines) (snd sec).

(** What the files that cannot be read leave on standard error, in the
    order of the paths. *)
Definition read_errors (fs : filesystem) (file_paths : list string)
  : list string :=
  flat_map (fun file_path =>
              match fs file_path with
              | ReadError e =>
                  ["Error reading file " ++ file_path ++ ": " ++ e]
              | ReadOk _ => []
              end) file_paths.

(** The number of records in all the sections. *)
Definition record_count (secs : list section) : nat :=
  list_sum (map (fun sec : section => length (snd sec)) secs).

(** The diagnostic is the one the scan prints for a header line of
    [lines], with the one-based number of that line. *)
Definition diagnostic_from (file_path : string) (lines : list string)
    (e : string) : Prop :=
  exists i, 0 <= i < len lines
            /\ is_header (Py.strip (get lines i)) = true
            /\ e = "Error: No timestamp found for pool statistics section at line "
                   +:+ pretty (i + 1) +:+ " in " +:+ file_path.

(** The collection loops take the line and read the record from it. *)
Definition accepted (l : string) (r : pool) : Prop := data_line l = Some r.


Definition nonempty_section (sec : section) : Prop := snd sec <> [].

Definition distinct_names (sec : section) : Prop :=
  NoDup (map pool_name (snd sec)).

(** ** Sample inputs *)

Definition status_line : string :=
  "INFO  [OptionalTasks:1] 2025-10-03 10:08:32,368  StatusLogger.java:51 - ".

Definition header_line : string :=
  "Pool Name                    Active   Pending      Completed   Blocked  All Time Blocked".

Definition compaction_row : string :=
  "CompactionExecutor                0         0           1234         0                 0".

Definition gossip_row : string :=
  "GossipStage                       1         2             77         0                 0".

Definition compaction : pool :=
  mk_pool "CompactionExecutor" "0" "0" "0" "0" "0" "0" "1234" "0" "0".

Definition gossip : pool :=
  mk_pool "GossipStage" "1" "2" "0" "0" "0" "0" "77" "0" "0".

Definition sample_timestamp : string := "2025-10-03 10:08:32,368".

Definition gossip_later : pool :=
  mk_pool "GossipStage" "3" "4" "0" "0" "0" "0" "80" "0" "0".

(** A row of the long form. *)
Definition long_row : string :=
  "ReadStage       1     2     3     4     5     6     7     8     9".

(** The text of a file with the given lines. *)
Definition unlines (l : list string) : string :=
  String.concat "" (map (fun x => x ++ String Py.LF "") l).

(** A file system with the one file [system.log], in which every path
    can be opened for writing. *)
Definition one_file (content : string) : filesystem :=
  mk_fs
    (fun file_path =>
       if String.eqb file_path "system.log" then ReadOk content
       else ReadError "[Errno 2] No such file or directory")
    (fun _ => None).

(** The same with an output directory that does not exist. *)
Definition no_output_dir (content : string) : filesystem :=
  mk_fs (read_file (one_file content))
    (fun path =>
       Some ("FileNotFoundError: [Errno 2] No such file or directory: '"
             ++ path ++ "'")).

(** The short form of lines 65-76 over a list of tokens. *)
Definition short_form_of (columns : list string) : pool :=
  {| pool_name := Py.strip (col columns 0);
     active := Py.strip (col columns 1);
     pending := Py.strip (col columns 2);
     backpressure := "0";
     delayed := "0";
     shared := "0";
     stolen := "0";
     completed := Py.strip (col columns 3);
     blocked := Py.strip (col columns 4);
     all_time_blocked := Py.strip (col columns 5) |}.

(** Two lines with whitespace in front. *)
Definition padded_five : string := "  a  b  c  d  e".
Definition padded_six : string := "  a  b  c  d  e  f".

(** A header followed by [n] lines of other text and then a status line. *)
Definition marker_after (n : nat) : string :=
  unlines
    (header_line :: repeat "    at some.Frame(File.java:1)" n ++ [status_line]).


(** A header with nothing that gives a timestamp. *)
Definition bare_header : string := unlines [header_line; compaction_row].

(** Two sections; GossipStage is listed in the first only. *)
Definition two_sections : string :=
  unlines [status_line; header_line; compaction_row; gossip_row; "";
           status_line; header_line; compaction_row].

Definition pivot_args : args :=
  mk_args ["system.log"] (Some "GossipStage") (Some "Active,Completed")
    (Some "out.csv").

(** A section in which the same pool is listed twice. *)
Definition repeated_rows : string :=
  unlines [status_line; header_line; compaction_row; compaction_row].

(** Closes a case of a loop body: names the control value, then the
    invariant and the measure. *)
Ltac loop_case :=
  eexists; split; [reflexivity|]; simpl;
  first [exact I | split; [exact I|lia]].

(** * Properties *)

(** ** Loops *)

Section while_rule.
Context {S : Type} (cond : S -> bool) (body : S -> option (ctl S)).
Variable Inv : S -> Prop.
Variable Post : S -> Prop.
Variable measure : S -> nat.

Hypothesis exit_ok : forall s, Inv s -> cond s = false -> Post s.
Hypothesis body_ok : forall s, Inv s -> cond s = true ->
  exists c, body s = Some c /\
    match c with
    | Continue s' => Inv s' /\ (measure s' < measure s)%nat
    | Break s' => Post s'
    end.

(** A loop whose body keeps the invariant and lowers the measure ends,
    within any fuel above the measure, in a state of [Post]. *)
Lemma while_rule : forall fuel s,
  Inv s -> (measure s < fuel)%nat ->
  exists r, while fuel cond body s = Some r /\ Post r.
Proof.
  induction fuel as [|fuel IH]; intros s Hinv Hm; [lia|].
  simpl. destruct (cond s) eqn:Hc.
  - destruct (body_ok s Hinv Hc) as (c & -> & Hcase).
    destruct c as [s'|s'].
    + destruct Hcase as [Hinv' Hlt]. apply IH; [assumption|lia].
    + eauto.
  - eauto.
Qed.
End while_rule.

(** ** Indexing *)

Lemma len_nonneg {A} (l : list A) : 0 <= len l.
Proof. unfold len. lia. Qed.

Lemma len_app {A} (l1 l2 : list A) : len (l1 ++ l2) = len l1 + len l2.
Proof. unfold len. rewrite length_app. lia. Qed.

Lemma get_app_l (l1 l2 : list string) (j : Z) :
  0 <= j < len l1 -> get (l1 ++ l2) j = get l1 j.
Proof.
  unfold get, len. intros H. apply app_nth1. lia.
Qed.

Lemma get_app_r (l1 l2 : list string) (j : Z) :
  len l1 <= j -> get (l1 ++ l2) j = get l2 (j - len l1).
Proof.
  unfold get, len. intros H. rewrite app_nth2 by lia.
  f_equal. lia.
Qed.


(** ** The inner loops return *)

Lemma resolve_timestamp_total (lines : list string) (i : Z) :
  0 <= i -> exists ts, resolve_timestamp lines i = Some ts.
Proof.
  intros Hi. unfold resolve_timestamp.
  destruct (negb (Py.truthy_opt (timestamp_before lines i))); [|eauto].
  destruct (while_rule (ts_cond lines i) (ts_body lines)
              (fun _ => True) (fun _ => True)
              (fun st => Z.to_nat (len lines - fst st)))
    with (fuel := fuel_for lines) (s := (i + 1, timestamp_before lines i))
    as (r & -> & _); simpl; eauto.
  - intros [j ts] _ Hc. unfold ts_cond in Hc. simpl in Hc.
    apply andb_prop in Hc as [Hj _]. apply Z.ltb_lt in Hj.
    unfold ts_body.
    destruct (Py.contains marker (Py.strip (get lines j))); [loop_case|].
    destruct (starts_entry (Py.strip (get lines j))); loop_case.
  - unfold fuel_for, len. lia.
Qed.

Lemma collect_forward_total (lines : list string) (i : Z) :
  0 <= i -> exists recs, collect_forward lines i = Some recs.
Proof.
  intros Hi. unfold collect_forward.
  destruct (while_rule (fwd_cond lines) (fwd_body lines)
              (fun _ => True) (fun _ => True)
              (fun st => Z.to_nat (len lines - fst st)))
    with (fuel := fuel_for lines) (s := (i + 1, @nil pool))
    as (r & -> & _); simpl; eauto.
  - intros [j acc] _ Hc. unfold fwd_cond in Hc. simpl in Hc.
    apply Z.ltb_lt in Hc. unfold fwd_body.
    destruct (data_line (get lines j)); loop_case.
  - unfold fuel_for, len. lia.
Qed.

Lemma collect_backward_total (lines : list string) (i : Z) (acc : list pool) :
  i < len lines -> exists recs, collect_backward lines i acc = Some recs.
Proof.
  intros Hi. unfold collect_backward.
  destruct (while_rule bwd_cond (bwd_body lines)
              (fun _ => True) (fun _ => True)
              (fun st => Z.to_nat (fst st + 1)))
    with (fuel := fuel_for lines) (s := (i - 1, acc))
    as (r & -> & _); simpl; eauto.
  - intros [j a] _ Hc. unfold bwd_cond in Hc. simpl in Hc.
    apply Z.geb_le in Hc. unfold bwd_body.
    destruct (data_line (get lines j)); loop_case.
  - unfold fuel_for, len in *. lia.
Qed.

Lemma collect_pool_data_total (lines : list string) (i : Z) :
  0 <= i < len lines -> exists recs, collect_pool_data lines i = Some recs.
Proof.
  intros Hi. unfold collect_pool_data.
  destruct (collect_forward_total lines i) as (recs & ->); [lia|].
  destruct recs; [|eauto].
  apply collect_backward_total. lia.
Qed.

(** One turn of the outer loop returns, moves the index by one and keeps
    or extends the sections and the diagnostics. *)
Lemma scan_body_step (file_path : string) (lines : list string) (st : scan_state) :
  0 <= idx st < len lines ->
  exists secs es,
    scan_body file_path lines st
    = Some (Continue (mk_scan (idx st + 1) (sections st ++ secs) (errs st ++ es)))
    /\ Forall (fun sec : section => snd sec <> []) secs.
Proof.
  intros Hi. unfold scan_body.
  assert (Hnone : forall e, exists secs es,
            Some (Continue (mk_scan (idx st + 1) (sections st) (errs st ++ e)))
            = Some (Continue (mk_scan (idx st + 1) (sections st ++ secs)
                                (errs st ++ es)))
            /\ Forall (fun sec : section => snd sec <> []) secs).
  { intros e. exists [], e. rewrite app_nil_r. split; [reflexivity|constructor]. }
  destruct (is_header _).
  - destruct (resolve_timestamp_total lines (idx st)) as (ts & ->); [lia|].
    destruct ts as [ts|]; [|apply Hnone].
    destruct (Py.truthy ts); [|apply Hnone].
    destruct (collect_pool_data_total lines (idx st) Hi) as (recs & ->).
    destruct recs as [|r recs].
    + specialize (Hnone []). rewrite app_nil_r in Hnone. exact Hnone.
    + exists [(ts, r :: recs)], []. rewrite app_nil_r. split; [reflexivity|].
      constructor; [discriminate|constructor].
  - specialize (Hnone []). rewrite app_nil_r in Hnone. exact Hnone.
Qed.

(** ** The outer loop returns *)

Lemma scan_lines_total (file_path : string) (lines : list string) :
  exists r, scan_lines file_path lines = Some r
            /\ idx r = len lines /\ Forall nonempty_section (sections r).
Proof.
  unfold scan_lines.
  apply (while_rule (scan_cond lines) (scan_body file_path lines)
           (fun st => 0 <= idx st <= len lines
                      /\ Forall nonempty_section (sections st))
           (fun st => idx st = len lines
                      /\ Forall nonempty_section (sections st))
           (fun st => Z.to_nat (len lines - idx st))).
  - intros st [Hi Hs] Hc. unfold scan_cond in Hc. apply Z.ltb_ge in Hc.
    split; [lia|assumption].
  - intros st [Hi Hs] Hc. unfold scan_cond in Hc. apply Z.ltb_lt in Hc.
    destruct (scan_body_step file_path lines st) as (secs & es & -> & Hne);
      [lia|].
    eexists; split; [reflexivity|]. simpl. repeat split; try lia.
    apply Forall_app; split; assumption.
  - simpl. pose proof (len_nonneg lines). repeat split; try lia. constructor.
  - simpl. unfold fuel_for, len. lia.
Qed.

(** ** The Section Locator *)

(** The function returns for every file system and path, and what it
    returns has no empty section. *)
Lemma find_pool_statistics_sections_total (fs : filesystem)
    (file_path : string) :
  exists secs es,
    find_pool_statistics_sections fs file_path = Some (secs, es)
    /\ Forall nonempty_section secs.
Proof.
  unfold find_pool_statistics_sections.
  destruct (fs file_path) as [e|content].
  - eexists _, _. split; [reflexivity|constructor].
  - simpl.
    destruct (scan_lines_total file_path (Py.readlines content))
      as (r & -> & _ & Hs).
    eexists _, _. split; [reflexivity|exact Hs].
Qed.

(** C3 (as amended): every section the Section Locator returns has at
    least one record.  The function returns for every file system and
    path. *)
Theorem sections_nonempty (fs : filesystem) (file_path : string) :
  exists secs es,
    find_pool_statistics_sections fs file_path = Some (secs, es)
    /\ Forall nonempty_section secs.
Proof. apply find_pool_statistics_sections_total. Qed.

(** C3 as stated fails: two data lines with the same pool name give a
    section with two records of that name. *)
Lemma repeated_rows_not_distinct :
  ~ (forall secs es,
       find_pool_statistics_sections (one_file repeated_rows) "system.log"
       = Some (secs, es) ->
       Forall (fun sec => nonempty_section sec /\ distinct_names sec) secs).
Proof.
  intros H.
  specialize (H [(sample_timestamp, [compaction; compaction])] []).
  assert (Hrun : find_pool_statistics_sections (one_file repeated_rows)
                   "system.log"
                 = Some ([(sample_timestamp, [compaction; compaction])], []))
    by (vm_compute; reflexivity).
  apply H in Hrun. inversion Hrun as [|sec secs [_ Hd] _]; subst.
  unfold distinct_names in Hd. simpl in Hd.
  inversion Hd as [|x l Hnotin _]; subst.
  apply Hnotin. left.
Qed.



(** Whatever the tenth line after the header holds, the forward scan does
    not read it: when the line before the header gives no timestamp and
    the lines from [i + 1] up to [i + 9] are passed over, no timestamp is
    found. *)
Lemma forward_scan_window (lines : list string) (i : Z) :
  0 <= i ->
  timestamp_before lines i = None ->
  (forall j, i + 1 <= j < i + 10 -> j < len lines ->
             passed_over (get lines j)) ->
  resolve_timestamp lines i = Some None.
Proof.
  intros Hi Hbefore Hplain. unfold resolve_timestamp. rewrite Hbefore.
  cbv beta iota delta [negb Py.truthy_opt].
  destruct (while_rule (ts_cond lines i) (ts_body lines)
              (fun st => i + 1 <= fst st /\ snd st = None)
              (fun st => snd st = None)
              (fun st => Z.to_nat (len lines - fst st)))
    with (fuel := fuel_for lines) (s := (i + 1, @None string))
    as (r & -> & Hr).
  - intros st [_ H] _. exact H.
  - intros [j ts] [Hj Hts] Hc. simpl in Hj, Hts. subst ts.
    unfold ts_cond in Hc. simpl in Hc.
    apply andb_prop in Hc as [Hlen Hwin].
    apply Z.ltb_lt in Hlen. apply Z.ltb_lt in Hwin.
    destruct (Hplain j) as [Hm Hs]; [lia|lia|].
    unfold ts_body. rewrite Hm, Hs.
    eexists; split; [reflexivity|]. simpl. repeat split; lia.
  - simpl. split; [lia|reflexivity].
  - simpl. unfold fuel_for, len. lia.
  - simpl. rewrite Hr. reflexivity.
Qed.

(** C2: the forward scan for the timestamp reads the nine lines after the
    header, not ten.  With the status line on the ninth line after the
    header the timestamp is found; on the tenth line it is not, and the
    header is reported as having no timestamp. *)
Theorem forward_scan_reads_nine_lines :
  resolve_timestamp (Py.readlines (marker_after 8)) 0
  = Some (Some sample_timestamp)
  /\ resolve_timestamp (Py.readlines (marker_after 9)) 0 = Some None
  /\ extract_timestamp (Py.strip (get (Py.readlines (marker_after 9)) (0 + 10)))
     = Some sample_timestamp
  /\ Py.contains marker (Py.strip (get (Py.readlines (marker_after 9)) (0 + 10)))
     = true
  /\ find_pool_statistics_sections (one_file (marker_after 9)) "system.log"
     = Some ([], ["Error: No timestamp found for pool statistics section at line 1 in system.log"]).
Proof. vm_compute. repeat split. Qed.

(** ** The Table Row Parser *)

Lemma ends_nonspace_tail (c : ascii) (t : list ascii) :
  t <> [] -> ends_nonspace (c :: t) -> ends_nonspace t.
Proof.
  unfold ends_nonspace. destruct t as [|d t]; [congruence|].
  intros _ H. exact H.
Qed.

Lemma ends_nonspace_space_tail (c : ascii) (t : list ascii) :
  Py.is_space c = true -> ends_nonspace (c :: t) -> t <> [].
Proof.
  unfold ends_nonspace. intros Hc H ->. simpl in H. congruence.
Qed.

Lemma ends_nonspace_tail' (c : ascii) (t : list ascii) :
  ends_nonspace (c :: t) -> ends_nonspace t.
Proof.
  destruct t as [|d t]; [intros _; exact I|].
  apply ends_nonspace_tail. discriminate.
Qed.

(** The number of words does not depend on the word being read. *)
Lemma split_ws_go_length (t : list ascii) (w w' : list ascii) :
  length (Py.split_ws_go (Some w) t) = length (Py.split_ws_go (Some w') t).
Proof.
  revert w w'. induction t as [|c t IH]; intros w w'; simpl; [reflexivity|].
  destruct (Py.is_space c); simpl; [reflexivity|apply IH].
Qed.

(** On text that does not end in whitespace, the wide-gap scanner yields
    no more tokens than there are words left, in each of its states. *)
Lemma wide_split_go_words (t : list ascii) :
  ends_nonspace t ->
  (forall cur w,
     (length (Py.wide_split_go (Py.InToken cur) t)
      <= length (Py.split_ws_go (Some w) t))%nat)
  /\ (forall cur w0,
     (length (Py.wide_split_go (Py.OneSpace cur w0) t)
      <= 1 + length (Py.split_ws_go None t))%nat)
  /\ (t <> [] ->
     (length (Py.wide_split_go Py.InGap t)
      <= length (Py.split_ws_go None t))%nat).
Proof.
  induction t as [|c t IH]; intros Hend.
  - simpl. repeat split; intros; try lia. congruence.
  - pose proof (ends_nonspace_tail' _ _ Hend) as Hend'.
    destruct (IH Hend') as (IH1 & IH2 & IH3).
    simpl. destruct (Py.is_space c) eqn:Hc.
    + pose proof (ends_nonspace_space_tail _ _ Hc Hend) as Hne.
      repeat split; intros; simpl.
      * apply IH2.
      * specialize (IH3 Hne). lia.
      * apply IH3, Hne.
    + repeat split; intros; simpl.
      * apply IH1.
      * specialize (IH1 (c :: w0 :: cur) [c]). lia.
      * apply IH1.
Qed.

Lemma lstrip_chars_snoc (a : list ascii) (c : ascii) :
  Py.is_space c = false ->
  Py.lstrip_chars (a ++ [c]) = (Py.lstrip_chars a ++ [c])%list.
Proof.
  intros Hc. induction a as [|d a IH]; simpl.
  - rewrite Hc. reflexivity.
  - destruct (Py.is_space d); [exact IH|reflexivity].
Qed.

Lemma lstrip_chars_head (l : list ascii) :
  Py.lstrip_chars l = []
  \/ exists c t, Py.lstrip_chars l = c :: t /\ Py.is_space c = false.
Proof.
  induction l as [|d l IH]; simpl; [left; reflexivity|].
  destruct (Py.is_space d) eqn:Hd; [exact IH|].
  right. eauto.
Qed.

(** A stripped text is empty or starts with a character that is not
    whitespace; and it does not end in whitespace. *)
Lemma strip_chars_head (l : list ascii) :
  Py.strip_chars l = []
  \/ exists c t, Py.strip_chars l = c :: t /\ Py.is_space c = false.
Proof.
  unfold Py.strip_chars, Py.rstrip_chars.
  destruct (lstrip_chars_head l) as [-> | (c & t & -> & Hc)].
  - left. reflexivity.
  - right. simpl. rewrite lstrip_chars_snoc by exact Hc.
    rewrite rev_app_distr. simpl. eauto.
Qed.

Lemma strip_chars_ends (l : list ascii) : ends_nonspace (Py.strip_chars l).
Proof.
  unfold Py.strip_chars, Py.rstrip_chars, ends_nonspace.
  destruct (lstrip_chars_head (rev (Py.lstrip_chars l)))
    as [-> | (c & t & -> & Hc)]; simpl.
  - exact I.
  - rewrite last_snoc. exact Hc.
Qed.

Lemma chars_str (l : list ascii) : Py.chars (Py.str l) = l.
Proof. apply list_ascii_of_string_of_list_ascii. Qed.

(** The first test of [parse_pool_line] never rejects a line that the
    second one would accept: a stripped line has at least as many words
    as wide-gap columns, unless it is empty and has the one empty column. *)
Lemma columns_le_parts (line : string) :
  (length (Py.wide_split (Py.strip line))
   <= length (Py.split_ws (Py.strip line)))%nat
  \/ length (Py.wide_split (Py.strip line)) = 1%nat.
Proof.
  unfold Py.wide_split, Py.split_ws, Py.strip.
  rewrite !length_map, chars_str.
  pose proof (strip_chars_ends (Py.chars line)) as Hend.
  destruct (strip_chars_head (Py.chars line)) as [Heq | (c & t & Heq & Hc)];
    rewrite Heq in *.
  - right. reflexivity.
  - left. simpl. rewrite Hc.
    apply (wide_split_go_words t (ends_nonspace_tail' _ _ Hend)).
Qed.

(** C4 (as amended): a line whose wide-gap split, taken of the stripped
    line as the parser takes it, has from 6 to 9 tokens is parsed in the
    short form: tokens 0 to 5 of that split, each stripped, are the name,
    active, pending, completed, blocked and all_time_blocked, and the
    four other fields are the text 0. *)
Theorem short_form_record (line : string) :
  let columns := Py.wide_split (Py.strip line) in
  (6 <= length columns <= 9)%nat ->
  parse_pool_line line
  = Some {| pool_name := Py.strip (col columns 0);
            active := Py.strip (col columns 1);
            pending := Py.strip (col columns 2);
            backpressure := "0";
            delayed := "0";
            shared := "0";
            stolen := "0";
            completed := Py.strip (col columns 3);
            blocked := Py.strip (col columns 4);
            all_time_blocked := Py.strip (col columns 5) |}.
Proof.
  intros columns Hn. unfold parse_pool_line. fold columns.
  assert (Hparts : (6 <= length (Py.split_ws (Py.strip line)))%nat).
  { destruct (columns_le_parts line) as [H|H]; fold columns in H; lia. }
  destruct (Z.ltb_spec (Z.of_nat (length (Py.split_ws (Py.strip line)))) 6);
    [lia|].
  destruct (Z.ltb_spec (Z.of_nat (length columns)) 6); [lia|].
  destruct (Z.geb_spec (Z.of_nat (length columns)) 10); [lia|].
  reflexivity.
Qed.

Lemma short_form_record_witness :
  parse_pool_line compaction_row = Some compaction.
Proof.
  apply (short_form_record compaction_row). vm_compute. split; lia.
Defined.

(** C4 as stated fails: the parser strips the line before it splits it,
    so the tokens of the line as it is given are not the ones it counts
    and stores.  The line of five values after two spaces splits into six
    tokens, the first one empty, and is rejected. *)
Lemma unstripped_split_not_parsed :
  ~ (forall line,
       (6 <= length (Py.wide_split line) <= 9)%nat ->
       parse_pool_line line = Some (short_form_of (Py.wide_split line))).
Proof.
  intros H. specialize (H padded_five).
  assert (Hn : (6 <= length (Py.wide_split padded_five) <= 9)%nat)
    by (vm_compute; lia).
  apply H in Hn. vm_compute in Hn. discriminate.
Qed.

(** With six values after the two spaces the line is taken, but the name
    stored is the first value and not the empty first token. *)
Example unstripped_split_other_tokens :
  length (Py.wide_split padded_six) = 7%nat
  /\ col (Py.wide_split padded_six) 0 = ""
  /\ parse_pool_line padded_six = Some (mk_pool "a" "b" "c" "0" "0" "0" "0" "d" "e" "f").
Proof. vm_compute. repeat split. Qed.

(** *** Stripping before splitting *)

Lemma wide_split_go_pos (st : Py.gap_state) (l : list ascii) :
  (1 <= length (Py.wide_split_go st l))%nat.
Proof.
  revert st. induction l as [|c l IH]; intros st.
  - destruct st; simpl; lia.
  - destruct st; simpl; destruct (Py.is_space c); simpl;
      first [apply IH | lia].
Qed.

(** Text added at the end does not lower the number of tokens. *)
Lemma wide_split_go_app (l ws : list ascii) (st : Py.gap_state) :
  (length (Py.wide_split_go st l) <= length (Py.wide_split_go st (l ++ ws)))%nat.
Proof.
  revert st. induction l as [|c l IH]; intros st.
  - pose proof (wide_split_go_pos st ws). destruct st; simpl in *; lia.
  - destruct st; simpl; destruct (Py.is_space c); simpl;
      first [apply IH | apply le_n_S, IH].
Qed.

(** The number of tokens does not depend on the token being read. *)
Lemma wide_split_go_cur (l : list ascii) :
  (forall cur cur',
     length (Py.wide_split_go (Py.InToken cur) l)
     = length (Py.wide_split_go (Py.InToken cur') l))
  /\ (forall cur w cur' w',
     length (Py.wide_split_go (Py.OneSpace cur w) l)
     = length (Py.wide_split_go (Py.OneSpace cur' w') l)).
Proof.
  induction l as [|c l [IH1 IH2]]; [split; reflexivity|].
  split; intros; simpl; destruct (Py.is_space c); simpl;
    first [apply IH1 | apply IH2 | reflexivity].
Qed.

Lemma wide_split_go_lstrip (l : list ascii) :
  (forall cur w,
     (length (Py.wide_split_go (Py.InToken []) (Py.lstrip_chars l))
      <= length (Py.wide_split_go (Py.OneSpace cur w) l))%nat)
  /\ (length (Py.wide_split_go (Py.InToken []) (Py.lstrip_chars l))
      <= length (Py.wide_split_go Py.InGap l))%nat.
Proof.
  induction l as [|c l [IH1 IH2]]; [split; intros; simpl; lia|].
  simpl. destruct (Py.is_space c) eqn:Hc.
  - split; intros; simpl; lia.
  - simpl. rewrite Hc. destruct (wide_split_go_cur l) as [Hcur _].
    split; intros.
    + rewrite (Hcur [c] (c :: w :: cur)). lia.
    + lia.
Qed.

Lemma lstrip_chars_split (l : list ascii) :
  exists ws, l = (ws ++ Py.lstrip_chars l)%list.
Proof.
  induction l as [|c l (ws & IH)]; [exists []; reflexivity|].
  simpl. destruct (Py.is_space c).
  - exists (c :: ws). simpl. f_equal. exact IH.
  - exists []. reflexivity.
Qed.

Lemma rstrip_chars_split (l : list ascii) :
  exists ws, l = (Py.rstrip_chars l ++ ws)%list.
Proof.
  unfold Py.rstrip_chars.
  destruct (lstrip_chars_split (rev l)) as (ws & Hws).
  exists (rev ws). rewrite <- rev_app_distr, <- Hws, rev_involutive.
  reflexivity.
Qed.

(** Splitting the stripped line, as [parse_pool_line] does, never gives
    more tokens than splitting the line itself. *)
Lemma wide_split_strip_le (line : string) :
  (length (Py.wide_split (Py.strip line)) <= length (Py.wide_split line))%nat.
Proof.
  unfold Py.wide_split, Py.strip. rewrite !length_map, chars_str.
  unfold Py.strip_chars.
  destruct (rstrip_chars_split (Py.lstrip_chars (Py.chars line))) as (ws & Hws).
  etransitivity; [apply (wide_split_go_app _ ws)|]. rewrite <- Hws.
  destruct (Py.chars line) as [|c l]; [simpl; lia|].
  simpl. destruct (Py.is_space c) eqn:Hc; [|simpl; rewrite Hc; lia].
  apply wide_split_go_lstrip.
Qed.

(** For a line that is already stripped, as the Section Locator passes
    them, the tokens are those of the line as given. *)
Corollary short_form_record_stripped (line : string) :
  Py.strip line = line ->
  (6 <= length (Py.wide_split line) <= 9)%nat ->
  parse_pool_line line
  = Some {| pool_name := Py.strip (col (Py.wide_split line) 0);
            active := Py.strip (col (Py.wide_split line) 1);
            pending := Py.strip (col (Py.wide_split line) 2);
            backpressure := "0";
            delayed := "0";
            shared := "0";
            stolen := "0";
            completed := Py.strip (col (Py.wide_split line) 3);
            blocked := Py.strip (col (Py.wide_split line) 4);
            all_time_blocked := Py.strip (col (Py.wide_split line) 5) |}.
Proof.
  intros Hs Hn. pose proof (columns_le_parts line) as Hparts.
  unfold parse_pool_line. rewrite Hs in *.
  destruct (Z.ltb_spec (Z.of_nat (length (Py.split_ws line))) 6); [lia|].
  destruct (Z.ltb_spec (Z.of_nat (length (Py.wide_split line))) 6); [lia|].
  destruct (Z.geb_spec (Z.of_nat (length (Py.wide_split line))) 10); [lia|].
  reflexivity.
Qed.

Lemma lstrip_chars_id (l : list ascii) :
  match l with c :: _ => Py.is_space c = false | [] => True end ->
  Py.lstrip_chars l = l.
Proof. destruct l as [|c l]; simpl; [reflexivity|]. intros ->. reflexivity. Qed.

(** Stripping a stripped line changes nothing, so for the lines the
    Section Locator passes to [parse_pool_line] the split of the line and
    the split of the stripped line are the same. *)
Lemma strip_idempotent (line : string) :
  Py.strip (Py.strip line) = Py.strip line.
Proof.
  unfold Py.strip. rewrite chars_str. f_equal.
  set (t := Py.strip_chars (Py.chars line)).
  pose proof (strip_chars_ends (Py.chars line)) as Hend. fold t in Hend.
  unfold Py.strip_chars at 1.
  rewrite lstrip_chars_id.
  - unfold Py.rstrip_chars. rewrite lstrip_chars_id; [apply rev_involutive|].
    unfold ends_nonspace in Hend.
    destruct t as [|c t'] using rev_ind; [exact I|].
    rewrite last_snoc in Hend. rewrite rev_app_distr. exact Hend.
  - destruct (strip_chars_head (Py.chars line)) as [H|(c & t' & H & Hc)];
      fold t in H; rewrite H; [exact I|exact Hc].
Qed.

(** C5: a line whose wide-gap split has fewer than 6 tokens is rejected,
    whether the split is taken of the stripped line, as the parser takes
    it, or of the line as it is given. *)
Theorem too_few_columns_rejected (line : string) :
  ((length (Py.wide_split (Py.strip line)) < 6)%nat ->
   parse_pool_line line = None)
  /\ ((length (Py.wide_split line) < 6)%nat -> parse_pool_line line = None).
Proof.
  assert (H : (length (Py.wide_split (Py.strip line)) < 6)%nat ->
              parse_pool_line line = None).
  { intros Hn. unfold parse_pool_line.
    destruct (Z.of_nat (length (Py.split_ws (Py.strip line))) <? 6);
      [reflexivity|].
    destruct (Z.ltb_spec (Z.of_nat (length (Py.wide_split (Py.strip line)))) 6);
      [reflexivity|lia]. }
  split; [exact H|].
  intros Hn. apply H. pose proof (wide_split_strip_le line). lia.
Qed.

Lemma too_few_columns_rejected_witness :
  parse_pool_line "Pool Name   Active   Pending" = None.
Proof.
  apply (too_few_columns_rejected "Pool Name   Active   Pending").
  vm_compute. lia.
Defined.

(** ** The Record Filter *)

(** C10: the Record Filter returns a subsequence of its input; with no
    target it returns its input; applied twice with the same targets it
    returns what it returns applied once. *)
Theorem filter_pools_subsequence (pool_data : list pool)
    (target_pools : list string) :
  filter_pools pool_data target_pools `sublist_of` pool_data
  /\ filter_pools pool_data [] = pool_data
  /\ filter_pools (filter_pools pool_data target_pools) target_pools
     = filter_pools pool_data target_pools.
Proof.
  unfold filter_pools. destruct target_pools as [|t ts].
  - repeat split; reflexivity.
  - repeat split.
    + apply sublist_filter.
    + apply list_filter_filter_l. intros x Hx. exact Hx.
Qed.

(** ** The Tabular Projector *)

Lemma pool_dict_of_snoc (l : list pool) (p : pool) :
  pool_dict_of (l ++ [p]) = <[pool_name p := p]> (pool_dict_of l).
Proof. unfold pool_dict_of. rewrite foldl_app. reflexivity. Qed.

Lemma last_named_snoc (name : string) (l : list pool) (p : pool) :
  last_named name (l ++ [p])
  = if decide (pool_name p = name) then Some p else last_named name l.
Proof.
  unfold last_named. rewrite filter_app, filter_cons, filter_nil.
  destruct (decide (pool_name p = name)).
  - apply last_snoc.
  - rewrite app_nil_r. reflexivity.
Qed.

(** The dictionary of line 304 maps a name to the last record with it. *)
Lemma pool_dict_lookup (name : string) (l : list pool) :
  pool_dict_of l !! name = last_named name l.
Proof.
  induction l as [|p l IH] using rev_ind; [reflexivity|].
  rewrite pool_dict_of_snoc, last_named_snoc, lookup_insert.
  destruct (decide (pool_name p = name)); [reflexivity|exact IH].
Qed.

Lemma last_named_none (name : string) (l : list pool) :
  Forall (fun r => pool_name r <> name) l -> last_named name l = None.
Proof.
  intros H. unfold last_named.
  replace (filter (fun r => pool_name r = name) l) with (@nil pool);
    [reflexivity|].
  symmetry. induction H as [|r l Hr _ IH]; [reflexivity|].
  rewrite filter_cons. destruct (decide (pool_name r = name)); [contradiction|].
  exact IH.
Qed.

Lemma last_named_app (name : string) (l1 l2 : list pool) :
  last_named name (l1 ++ l2)
  = match last_named name l2 with
    | Some r => Some r
    | None => last_named name l1
    end.
Proof.
  unfold last_named. rewrite filter_app, last_app. reflexivity.
Qed.

Lemma last_named_cons_hit (l : list pool) (r : pool) :
  Forall (fun r' => pool_name r' <> pool_name r) l ->
  last_named (pool_name r) (r :: l) = Some r.
Proof.
  intros H. change (r :: l) with ([r] ++ l)%list.
  rewrite last_named_app, (last_named_none _ _ H).
  unfold last_named. rewrite filter_cons. rewrite decide_True by reflexivity.
  reflexivity.
Qed.

(** Records of another name do not count. *)
Lemma last_named_drop_others (name other : string) (l : list pool) :
  name <> other ->
  last_named name (filter (fun r => pool_name r <> other) l)
  = last_named name l.
Proof.
  intros Hne. unfold last_named. f_equal.
  apply list_filter_filter_l. intros x Hx. congruence.
Qed.

(** C9: when the filtered records of a section hold several records of
    one name, the cells of that name in the section's row are the metrics
    of the last of them, and the whole row is the row the section would
    give without the earlier ones. *)
Theorem pivot_row_last_record (selected_columns target_pools names : list string)
    (timestamp : string) (pool_data l1 l2 : list pool) (r : pool) :
  filter_pools pool_data target_pools = (l1 ++ r :: l2)%list ->
  Forall (fun r' => pool_name r' <> pool_name r) l2 ->
  pivot_cells selected_columns
    (pool_dict_of (filter_pools pool_data target_pools)) (pool_name r)
  = map (fun col => metric col r) selected_columns
  /\ pivot_row selected_columns target_pools names (timestamp, pool_data)
     = timestamp
         :: flat_map
              (pivot_cells selected_columns
                 (pool_dict_of
                    (filter (fun r' => pool_name r' <> pool_name r) l1
                       ++ r :: l2)))
              names.
Proof.
  intros Hf Hl2. split.
  - unfold pivot_cells. rewrite pool_dict_lookup, Hf, last_named_app.
    rewrite (last_named_cons_hit _ _ Hl2). reflexivity.
  - unfold pivot_row. rewrite Hf. do 3 f_equal.
    apply map_eq. intros name. rewrite !pool_dict_lookup, !last_named_app.
    destruct (last_named name (r :: l2)) eqn:Hlast; [reflexivity|].
    apply eq_sym, last_named_drop_others. intros Heq. subst name.
    rewrite (last_named_cons_hit _ _ Hl2) in Hlast. discriminate.
Qed.

Lemma pivot_row_last_record_witness :
  pivot_cells ["Active"; "Completed"]
    (pool_dict_of
       (filter_pools [gossip; compaction; gossip_later] ["gossipstage"]))
    "GossipStage"
  = ["3"; "80"]
  /\ pivot_row ["Active"; "Completed"] ["gossipstage"] ["GossipStage"]
       (sample_timestamp, [gossip; compaction; gossip_later])
     = sample_timestamp
         :: flat_map
              (pivot_cells ["Active"; "Completed"] (pool_dict_of [gossip_later]))
              ["GossipStage"].
Proof.
  apply (pivot_row_last_record ["Active"; "Completed"] ["gossipstage"]
           ["GossipStage"] sample_timestamp [gossip; compaction; gossip_later]
           [gossip] [] gossip_later).
  - vm_compute. reflexivity.
  - constructor.
Defined.

Lemma elem_of_section_names (name : string) (l : list pool) (acc : gset string) :
  name ∈ foldl (fun names pool => names ∪ {[pool_name pool]}) acc l
  <-> name ∈ acc \/ exists r, r ∈ l /\ pool_name r = name.
Proof.
  revert acc. induction l as [|p l IH]; intros acc; simpl.
  - split; [tauto|]. intros [H|(r & Hr & _)]; [exact H|]. inversion Hr.
  - rewrite IH. rewrite elem_of_union, elem_of_singleton. split.
    + intros [[H|H]|(r & Hr & Hn)].
      * tauto.
      * right. exists p. split; [left|congruence].
      * right. exists r. split; [right; exact Hr|exact Hn].
    + intros [H|(r & Hr & Hn)]; [tauto|].
      apply elem_of_cons in Hr as [->|Hr]; [left; right; congruence|].
      right. eauto.
Qed.

Lemma elem_of_matched_names_from (target_pools : list string) (name : string)
    (secs : list section) (acc : gset string) :
  name ∈ foldl (fun all_pool_names '(timestamp, pool_data) =>
                  foldl (fun names pool => names ∪ {[pool_name pool]})
                    all_pool_names (filter_pools pool_data target_pools))
           acc secs
  <-> name ∈ acc
      \/ exists sec r, sec ∈ secs /\ r ∈ filter_pools (snd sec) target_pools
                       /\ pool_name r = name.
Proof.
  revert acc. induction secs as [|[ts recs] secs IH]; intros acc; simpl.
  - split; [tauto|]. intros [H|(sec & r & Hs & _)]; [exact H|]. inversion Hs.
  - rewrite IH, elem_of_section_names. split.
    + intros [[H|(r & Hr & Hn)]|(sec & r & Hs & Hr & Hn)].
      * tauto.
      * right. exists (ts, recs), r. split; [left|split; assumption].
      * right. exists sec, r. split; [right; exact Hs|split; assumption].
    + intros [H|(sec & r & Hs & Hr & Hn)]; [tauto|].
      apply elem_of_cons in Hs as [->|Hs].
      * left. right. eauto.
      * right. eauto.
Qed.

(** The names collected by lines 281-285 are the names of the records
    that pass the filter in some section. *)
Lemma elem_of_matched_names (target_pools : list string) (name : string)
    (secs : list section) :
  name ∈ matched_names target_pools secs
  <-> exists sec r, sec ∈ secs /\ r ∈ filter_pools (snd sec) target_pools
                    /\ pool_name r = name.
Proof.
  unfold matched_names. rewrite elem_of_matched_names_from.
  split; [intros [H|H]; [|exact H]|tauto].
  apply not_elem_of_empty in H. contradiction.
Qed.

(** [sorted] lists the elements of the set, once each, in the order of
    the strings. *)
Lemma sorted_spec (names : gset string) :
  Sorted String.le (sorted names) /\ NoDup (sorted names)
  /\ forall name, name ∈ sorted names <-> name ∈ names.
Proof.
  unfold sorted. split; [apply (Sorted_merge_sort String.le)|]. split.
  - rewrite merge_sort_Permutation. apply NoDup_elements.
  - intros name. rewrite merge_sort_Permutation. apply elem_of_elements.
Qed.

Lemma pivot_cells_length (selected_columns : list string)
    (pool_dict : gmap string pool) (name : string) :
  length (pivot_cells selected_columns pool_dict name)
  = length selected_columns.
Proof.
  unfold pivot_cells. destruct (pool_dict !! name).
  - apply length_map.
  - apply length_replicate.
Qed.

Lemma pivot_cells_absent (selected_columns : list string) (l : list pool)
    (name : string) :
  (forall r, r ∈ l -> pool_name r <> name) ->
  pivot_cells selected_columns (pool_dict_of l) name
  = replicate (length selected_columns) "N/A".
Proof.
  intros H. unfold pivot_cells.
  rewrite pool_dict_lookup, last_named_none; [reflexivity|].
  apply Forall_forall. exact H.
Qed.

Lemma lookup_map {A B} (f : A -> B) (l : list A) (k : nat) (x : A) :
  l !! k = Some x -> map f l !! k = Some (f x).
Proof.
  revert k. induction l as [|y l IH]; intros [|k] H; try discriminate.
  - injection H as ->. reflexivity.
  - simpl. apply IH. exact H.
Qed.

Lemma pivot_cells_present (selected_columns : list string)
    (l1 l2 : list pool) (r : pool) :
  Forall (fun r' => pool_name r' <> pool_name r) l2 ->
  pivot_cells selected_columns (pool_dict_of (l1 ++ r :: l2)) (pool_name r)
  = map (fun col => metric col r) selected_columns.
Proof.
  intros Hl2. unfold pivot_cells.
  rewrite pool_dict_lookup, last_named_app, (last_named_cons_hit _ _ Hl2).
  reflexivity.
Qed.

(** C8: in pivot mode, when the output file opens, the file holds the
    header and one row per section, in the order of the sections.  The
    header is timestamp followed, for each matched name in sorted order,
    by a column name-metric for each selected metric; the matched names
    are those of the records that pass the filter in some section.  A row
    is the section's timestamp followed by one block per name, as wide as
    the selection: the block of a name with a record in the section's
    filtered records holds the selected metrics of that record (of the
    last one with the name), and the block of a name with no record there
    is all N/A. *)
Theorem pivot_output (fs : filesystem) (now : string) (a : args)
    (secs : list section) (e : list string) :
  invalid_columns_of a = [] ->
  collect_sections fs (files a) = Some (secs, e) ->
  target_pools_of a <> [] ->
  matched_names (target_pools_of a) secs <> ∅ ->
  open_for_writing fs (fst (open_output now a)) = None ->
  exists names rows,
    main fs now a
    = Some (mk_outcome 0 (e ++ snd (open_output now a))
              (Some (fst (open_output now a),
                     ("timestamp"
                        :: flat_map
                             (fun name =>
                                map (fun col => name +:+ "-" +:+ col)
                                  (selected_columns_of a))
                             names)
                       :: rows)))
    /\ Sorted String.le names /\ NoDup names
    /\ (forall name,
          name ∈ names
          <-> exists sec r,
                sec ∈ secs /\ r ∈ filter_pools (snd sec) (target_pools_of a)
                /\ pool_name r = name)
    /\ length rows = length secs
    /\ forall k sec,
         secs !! k = Some sec ->
         exists block : string -> list string,
           rows !! k = Some (fst sec :: flat_map block names)
           /\ forall name,
                length (block name) = length (selected_columns_of a)
                /\ ((forall r, r ∈ filter_pools (snd sec) (target_pools_of a) ->
                               pool_name r <> name) ->
                    block name
                    = replicate (length (selected_columns_of a)) "N/A")
                /\ (forall l1 r l2,
                      filter_pools (snd sec) (target_pools_of a)
                      = (l1 ++ r :: l2)%list ->
                      pool_name r = name ->
                      Forall (fun r' => pool_name r' <> name) l2 ->
                      block name
                      = map (fun col => metric col r) (selected_columns_of a)).
Proof.
  intros Hinv Hsecs Htargets Hmatched Hopen.
  pose (names := sorted (matched_names (target_pools_of a) secs)).
  exists names,
    (map (pivot_row (selected_columns_of a) (target_pools_of a) names) secs).
  destruct (sorted_spec (matched_names (target_pools_of a) secs))
    as (Hsorted & Hnodup & Hin).
  split; [|split; [exact Hsorted|split; [exact Hnodup|split; [|split]]]].
  - unfold main. rewrite Hinv, Hsecs.
    destruct secs as [|sec secs].
    { exfalso. apply Hmatched. reflexivity. }
    destruct (open_output now a) as [path e_open]. simpl fst in *. simpl snd.
    rewrite Hopen.
    destruct (target_pools_of a) as [|t ts] eqn:Ht; [congruence|].
    rewrite bool_decide_eq_false_2 by exact Hmatched.
    reflexivity.
  - intros name. unfold names. rewrite Hin. apply elem_of_matched_names.
  - apply length_map.
  - intros k [ts recs] Hk.
    exists (pivot_cells (selected_columns_of a)
              (pool_dict_of (filter_pools recs (target_pools_of a)))).
    split.
    + apply (lookup_map
               (pivot_row (selected_columns_of a) (target_pools_of a) names)
               _ _ _ Hk).
    + intros name. split; [|split].
      * apply pivot_cells_length.
      * apply pivot_cells_absent.
      * simpl. intros l1 r l2 Hf <- Hl2. rewrite Hf.
        apply pivot_cells_present. exact Hl2.
Qed.

Lemma pivot_output_witness :
  exists names rows,
    main (one_file two_sections) "20251003_100832" pivot_args
    = Some (mk_outcome 0 []
              (Some ("out.csv",
                     ("timestamp"
                        :: flat_map
                             (fun name =>
                                map (fun col => name +:+ "-" +:+ col)
                                  ["Active"; "Completed"])
                             names)
                       :: rows)))
    /\ flat_map (fun name => map (fun col => name +:+ "-" +:+ col)
                              ["Active"; "Completed"]) names
       = ["GossipStage-Active"; "GossipStage-Completed"]
    /\ rows = [[sample_timestamp; "1"; "77"]; [sample_timestamp; "N/A"; "N/A"]].
Proof.
  destruct (pivot_output (one_file two_sections) "20251003_100832" pivot_args
              [(sample_timestamp, [compaction; gossip]);
               (sample_timestamp, [compaction])] [])
    as (names & rows & Hmain & _).
  - vm_compute. reflexivity.
  - vm_compute. reflexivity.
  - vm_compute. discriminate.
  - intros H.
    apply (f_equal (fun s : gset string => bool_decide ("GossipStage" ∈ s))) in H.
    vm_compute in H. discriminate.
  - reflexivity.
  - exists names, rows. split; [exact Hmain|].
    assert (Hrun : main (one_file two_sections) "20251003_100832" pivot_args
                   = Some (mk_outcome 0 []
                             (Some ("out.csv",
                                    [["timestamp"; "GossipStage-Active";
                                      "GossipStage-Completed"];
                                     [sample_timestamp; "1"; "77"];
                                     [sample_timestamp; "N/A"; "N/A"]]))))
      by (vm_compute; reflexivity).
    rewrite Hrun in Hmain. injection Hmain as Hheader Hrows.
    split; symmetry; assumption.
Defined.

Lemma collect_sections_total (fs : filesystem) (file_paths : list string) :
  exists secs es, collect_sections fs file_paths = Some (secs, es).
Proof.
  induction file_paths as [|file_path rest (secs & es & IH)]; simpl.
  - eauto.
  - destruct (find_pool_statistics_sections_total fs file_path)
      as (s1 & e1 & -> & _).
    rewrite IH. eauto.
Qed.

(** [main] returns on every command line and file system. *)
Lemma main_total (fs : filesystem) (now : string) (a : args) :
  exists o, main fs now a = Some o.
Proof.
  unfold main. destruct (invalid_columns_of a); [|eauto].
  destruct (collect_sections_total fs (files a)) as (secs & es & ->).
  destruct secs; [eauto|]. destruct (open_output now a) as [path e_open].
  destruct (open_for_writing fs path); [eauto|].
  destruct (target_pools_of a); [eauto|].
  destruct (bool_decide _); eauto.
Qed.

(** Every run in pivot mode in which no name matches ends with status 1
    and, when the output file opens, with that file opened and empty. *)
Lemma pivot_no_match (fs : filesystem) (now : string) (a : args)
    (secs : list section) (e : list string) :
  invalid_columns_of a = [] ->
  collect_sections fs (files a) = Some (secs, e) ->
  secs <> [] ->
  target_pools_of a <> [] ->
  matched_names (target_pools_of a) secs = ∅ ->
  open_for_writing fs (fst (open_output now a)) = None ->
  main fs now a
  = Some (mk_outcome 1
            ((e ++ snd (open_output now a))
               ++ ["No matching pools found for the specified filters."])
            (Some (fst (open_output now a), []))).
Proof.
  intros Hinv Hsecs Hne Htargets Hnone Hopen. unfold main. rewrite Hinv, Hsecs.
  destruct secs as [|sec secs]; [congruence|].
  destruct (open_output now a) as [path e_open]. simpl fst in *.
  rewrite Hopen.
  destruct (target_pools_of a) as [|t ts]; [congruence|].
  rewrite bool_decide_eq_true_2 by exact Hnone. reflexivity.
Qed.

(** C1: with a name filter that matches no pool the run fails, with
    status 1 and a line on standard error, but the output file has been
    opened for writing by then: it exists, empty. *)
Theorem empty_match_leaves_output_file :
  main (one_file two_sections) "20251003_100832"
    (mk_args ["system.log"] (Some "ReadStage") None (Some "out.csv"))
  = Some (mk_outcome 1
            ["No matching pools found for the specified filters."]
            (Some ("out.csv", []))).
Proof. vm_compute. reflexivity. Qed.

(** ** Collecting the data lines above the header *)




(** * Further properties *)

(** ** The Timestamp Extractor *)

Lemma match_here_inv (p : list Py.cls) (l m : list ascii) :
  Py.match_here p l = Some m ->
  l = (m ++ drop (length p) l)%list /\ length m = length p
  /\ Py.match_here p m = Some m.
Proof.
  revert l m. induction p as [|k p IH]; intros l m H; simpl in *.
  - injection H as <-. rewrite drop_0. auto.
  - destruct l as [|c l]; [discriminate|].
    destruct (Py.cls_ok k c) eqn:Hk; [|discriminate].
    destruct (Py.match_here p l) as [m'|] eqn:Hm; [|discriminate].
    injection H as <-. destruct (IH _ _ Hm) as (Hl & Hlen & Hself).
    simpl. rewrite Hk, Hself. repeat split; [|lia].
    f_equal. exact Hl.
Qed.

Lemma search_inv (p : list Py.cls) (l m : list ascii) :
  Py.search p l = Some m ->
  exists k, Py.match_here p (drop k l) = Some m
            /\ (k <= length l)%nat
            /\ forall j, (j < k)%nat -> Py.match_here p (drop j l) = None.
Proof.
  induction l as [|c l IH]; simpl; intros H.
  - destruct (Py.match_here p []) eqn:Hm; [|discriminate].
    exists 0%nat. rewrite drop_0. repeat split; [congruence|lia|lia].
  - destruct (Py.match_here p (c :: l)) eqn:Hm.
    + exists 0%nat. rewrite drop_0. repeat split; [congruence|simpl; lia|lia].
    + destruct (IH H) as (k & Hk & Hle & Hbefore).
      exists (S k). repeat split; [exact Hk|lia|].
      intros [|j] Hj; [exact Hm|]. apply Hbefore. lia.
Qed.

Lemma search_none (p : list Py.cls) (l : list ascii) :
  Py.search p l = None <-> forall j, Py.match_here p (drop j l) = None.
Proof.
  induction l as [|c l IH]; simpl.
  - split.
    + intros H j. rewrite drop_nil. destruct (Py.match_here p []); congruence.
    + intros H. specialize (H 0%nat). rewrite drop_nil in H. rewrite H.
      reflexivity.
  - split.
    + intros H. destruct (Py.match_here p (c :: l)) eqn:Hm; [discriminate|].
      intros [|j]; [exact Hm|]. apply IH. exact H.
    + intros H. pose proof (H 0%nat) as H0. rewrite drop_0 in H0.
      rewrite H0. apply IH. intros j. apply (H (S j)).
Qed.

Lemma length_str (l : list ascii) : String.length (Py.str l) = length l.
Proof. induction l as [|c l IH]; simpl; [reflexivity|]. f_equal. exact IH. Qed.

(** A timestamp that was extracted is never the empty text, so the test
    [if not timestamp] of the script only sees [None]. *)
Lemma extract_timestamp_truthy (line ts : string) :
  extract_timestamp line = Some ts -> Py.truthy ts = true.
Proof.
  unfold extract_timestamp. intros H.
  destruct (Py.search Py.timestamp_pattern (Py.chars line)) as [m|] eqn:Hs;
    [|discriminate].
  injection H as <-.
  destruct (search_inv _ _ _ Hs) as (k & Hk & _).
  destruct (match_here_inv _ _ _ Hk) as (_ & Hlen & _).
  destruct m; [discriminate|reflexivity].
Qed.

(** X1: a timestamp returned by [extract_timestamp] is a piece of the
    line, 23 characters long, of the form of the pattern, and no match of
    the pattern starts earlier in the line. *)
Theorem extract_timestamp_leftmost (line ts : string) :
  extract_timestamp line = Some ts ->
  exists pre post,
    Py.chars line = (pre ++ Py.chars ts ++ post)%list
    /\ String.length ts = 23%nat
    /\ timestamp_shape ts
    /\ forall j, (j < length pre)%nat ->
                 Py.match_here Py.timestamp_pattern (drop j (Py.chars line))
                 = None.
Proof.
  unfold extract_timestamp, timestamp_shape. intros H.
  destruct (Py.search Py.timestamp_pattern (Py.chars line)) as [m|] eqn:Hs;
    [|discriminate].
  injection H as <-. rewrite chars_str, length_str.
  destruct (search_inv _ _ _ Hs) as (k & Hk & Hle & Hbefore).
  destruct (match_here_inv _ _ _ Hk) as (Hl & Hlen & Hself).
  exists (take k (Py.chars line)),
    (drop (length Py.timestamp_pattern) (drop k (Py.chars line))).
  repeat split.
  - rewrite <- Hl. symmetry. apply take_drop.
  - rewrite Hlen. reflexivity.
  - exact Hself.
  - intros j Hj. apply Hbefore. rewrite length_take in Hj. lia.
Qed.

Lemma extract_timestamp_leftmost_witness :
  exists pre post,
    Py.chars status_line = (pre ++ Py.chars sample_timestamp ++ post)%list
    /\ String.length sample_timestamp = 23%nat
    /\ timestamp_shape sample_timestamp
    /\ forall j, (j < length pre)%nat ->
                 Py.match_here Py.timestamp_pattern (drop j (Py.chars status_line))
                 = None.
Proof.
  apply (extract_timestamp_leftmost status_line sample_timestamp).
  vm_compute. reflexivity.
Defined.

(** X2: [extract_timestamp] returns nothing exactly when the pattern
    matches at no position of the line. *)
Theorem extract_timestamp_none (line : string) :
  extract_timestamp line = None
  <-> forall j, Py.match_here Py.timestamp_pattern (drop j (Py.chars line))
                = None.
Proof.
  unfold extract_timestamp. rewrite <- search_none.
  destruct (Py.search Py.timestamp_pattern (Py.chars line)); simpl;
    split; congruence.
Qed.

Lemma extract_timestamp_none_witness :
  extract_timestamp header_line = None
  /\ forall j, Py.match_here Py.timestamp_pattern
                 (drop j (Py.chars header_line))
               = None.
Proof.
  assert (H : extract_timestamp header_line = None) by (vm_compute; reflexivity).
  split; [exact H|].
  apply (extract_timestamp_none header_line). exact H.
Defined.

(** ** Resolving the timestamp of a header *)

(** X3: a timestamp on the line before the header is used, whatever the
    lines after the header hold. *)
Theorem preceding_line_wins (lines : list string) (i : Z) (ts : string) :
  0 < i ->
  Py.contains marker (Py.strip (get lines (i - 1))) = true ->
  extract_timestamp (Py.strip (get lines (i - 1))) = Some ts ->
  resolve_timestamp lines i = Some (Some ts)
  /\ forall after,
       resolve_timestamp (take (Z.to_nat (i + 1)) lines ++ after) i
       = Some (Some ts).
Proof.
  intros Hi Hm Hts.
  assert (Hgen : forall ls, get ls (i - 1) = get lines (i - 1) ->
                            resolve_timestamp ls i = Some (Some ts)).
  { intros ls Hg. unfold resolve_timestamp, timestamp_before.
    destruct (Z.gtb_spec i 0); [|lia].
    rewrite Hg, Hm, Hts. simpl.
    rewrite (extract_timestamp_truthy _ _ Hts). reflexivity. }
  split; [apply Hgen; reflexivity|].
  intros after. apply Hgen.
  destruct (Z_lt_le_dec (i - 1) (len lines)) as [Hin|Hout].
  - rewrite get_app_l.
    + unfold get. rewrite !nth_lookup, lookup_take_lt by lia. reflexivity.
    + unfold len in *. rewrite length_take. lia.
  - unfold get at 2. rewrite nth_overflow by (unfold len in Hout; lia).
    exfalso. unfold get in Hm. rewrite nth_overflow in Hm
      by (unfold len in Hout; lia).
    vm_compute in Hm. discriminate.
Qed.

Lemma preceding_line_wins_witness :
  resolve_timestamp (Py.readlines two_sections) 1 = Some (Some sample_timestamp)
  /\ forall after,
       resolve_timestamp
         (take (Z.to_nat (1 + 1)) (Py.readlines two_sections) ++ after) 1
       = Some (Some sample_timestamp).
Proof.
  apply (preceding_line_wins (Py.readlines two_sections) 1 sample_timestamp).
  - lia.
  - vm_compute. reflexivity.
  - vm_compute. reflexivity.
Defined.

(** A loop that returns returns a state of [Post], when its body keeps
    the invariant. *)
Lemma while_partial {S : Type} (cond : S -> bool) (body : S -> option (ctl S))
    (Inv Post : S -> Prop) :
  (forall s, Inv s -> cond s = false -> Post s) ->
  (forall s s', Inv s -> cond s = true -> body s = Some (Continue s') -> Inv s') ->
  (forall s s', Inv s -> cond s = true -> body s = Some (Break s') -> Post s') ->
  forall fuel s r, Inv s -> while fuel cond body s = Some r -> Post r.
Proof.
  intros Hexit Hcont Hbreak.
  induction fuel as [|fuel IH]; intros s r Hinv H; simpl in H; [discriminate|].
  destruct (cond s) eqn:Hc.
  - destruct (body s) as [[s'|s']|] eqn:Hb; [| |discriminate].
    + apply (IH s'); [apply (Hcont s); assumption|exact H].
    + injection H as <-. apply (Hbreak s); assumption.
  - injection H as <-. apply Hexit; assumption.
Qed.

(** The forward scan, when the lines from [i + 1] up to [k - 1] are
    passed over and the body of the loop stops at line [k] with the
    timestamp [found], returns [found]. *)
Lemma ts_scan_stops (lines : list string) (i k : Z) (found : option string) :
  0 <= i ->
  timestamp_before lines i = None ->
  i + 1 <= k < i + 10 -> k < len lines ->
  (forall j, i + 1 <= j < k -> passed_over (get lines j)) ->
  ts_body lines (k, None) = Some (Break (k, found)) ->
  resolve_timestamp lines i = Some found.
Proof.
  intros Hi Hbefore Hk Hlen Hpass Hstop.
  unfold resolve_timestamp. rewrite Hbefore.
  cbv beta iota delta [negb Py.truthy_opt].
  destruct (while_rule (ts_cond lines i) (ts_body lines)
              (fun st => i + 1 <= fst st <= k /\ snd st = None)
              (fun st => snd st = found)
              (fun st => Z.to_nat (len lines - fst st)))
    with (fuel := fuel_for lines) (s := (i + 1, @None string))
    as (r & -> & Hr).
  - intros [j ts] [Hj _] Hc. simpl in Hj. unfold ts_cond in Hc. simpl in Hc.
    apply andb_false_iff in Hc as [Hc|Hc]; apply Z.ltb_ge in Hc; lia.
  - intros [j ts] [Hj Hts] Hc. simpl in Hj, Hts. subst ts.
    destruct (Z.eq_dec j k) as [->|Hne].
    + rewrite Hstop. eexists; split; [reflexivity|]. reflexivity.
    + destruct (Hpass j) as [Hm Hs]; [lia|].
      unfold ts_body. rewrite Hm, Hs.
      eexists; split; [reflexivity|]. simpl. repeat split; lia.
  - simpl. repeat split; lia.
  - simpl. unfold fuel_for, len. lia.
  - simpl. rewrite Hr. reflexivity.
Qed.

(** X4: when the line before the header gives no timestamp, the forward
    scan decides at the first line, among the nine after the header, that
    is not passed over: a line with the marker gives what
    [extract_timestamp] finds in it, even nothing, and a line without the
    marker that is empty or starts a log entry ends the search with no
    timestamp; later lines are not read. *)
Theorem forward_scan_first_stop (lines : list string) (i k : Z) :
  0 <= i ->
  timestamp_before lines i = None ->
  i + 1 <= k < i + 10 -> k < len lines ->
  (forall j, i + 1 <= j < k -> passed_over (get lines j)) ->
  (Py.contains marker (Py.strip (get lines k)) = true ->
   resolve_timestamp lines i
   = Some (extract_timestamp (Py.strip (get lines k))))
  /\ (Py.contains marker (Py.strip (get lines k)) = false ->
      starts_entry (Py.strip (get lines k)) = true ->
      resolve_timestamp lines i = Some None).
Proof.
  intros Hi Hbefore Hk Hlen Hpass. split.
  - intros Hm. apply (ts_scan_stops lines i k); try assumption.
    unfold ts_body. rewrite Hm. reflexivity.
  - intros Hm Hs. apply (ts_scan_stops lines i k); try assumption.
    unfold ts_body. rewrite Hm, Hs. reflexivity.
Qed.

Lemma forward_scan_first_stop_witness :
  (Py.contains marker (Py.strip (get (Py.readlines (marker_after 8)) 9)) = true ->
   resolve_timestamp (Py.readlines (marker_after 8)) 0
   = Some (extract_timestamp (Py.strip (get (Py.readlines (marker_after 8)) 9))))
  /\ (Py.contains marker (Py.strip (get (Py.readlines (marker_after 8)) 9)) = false ->
      starts_entry (Py.strip (get (Py.readlines (marker_after 8)) 9)) = true ->
      resolve_timestamp (Py.readlines (marker_after 8)) 0 = Some None).
Proof.
  apply (forward_scan_first_stop (Py.readlines (marker_after 8)) 0 9).
  - lia.
  - reflexivity.
  - lia.
  - vm_compute. reflexivity.
  - intros j Hj.
    assert (Hcases : j = 1 \/ j = 2 \/ j = 3 \/ j = 4 \/ j = 5 \/ j = 6
                     \/ j = 7 \/ j = 8) by lia.
    repeat (destruct Hcases as [->|Hcases]; [vm_compute; split; reflexivity|]).
    subst j. vm_compute. split; reflexivity.
Defined.

(** ** More on the Table Row Parser *)

(** X5: a line whose wide-gap split has 10 tokens or more is parsed in
    the long form: tokens 0 to 9, each stripped, are the ten fields in
    the order of the table, and further tokens are ignored. *)
Theorem long_form_record (line : string) :
  let columns := Py.wide_split (Py.strip line) in
  (10 <= length columns)%nat ->
  parse_pool_line line
  = Some {| pool_name := Py.strip (col columns 0);
            active := Py.strip (col columns 1);
            pending := Py.strip (col columns 2);
            backpressure := Py.strip (col columns 3);
            delayed := Py.strip (col columns 4);
            shared := Py.strip (col columns 5);
            stolen := Py.strip (col columns 6);
            completed := Py.strip (col columns 7);
            blocked := Py.strip (col columns 8);
            all_time_blocked := Py.strip (col columns 9) |}.
Proof.
  intros columns Hn. unfold parse_pool_line. fold columns.
  assert (Hparts : (6 <= length (Py.split_ws (Py.strip line)))%nat).
  { destruct (columns_le_parts line) as [H|H]; fold columns in H; lia. }
  destruct (Z.ltb_spec (Z.of_nat (length (Py.split_ws (Py.strip line)))) 6);
    [lia|].
  destruct (Z.ltb_spec (Z.of_nat (length columns)) 6); [lia|].
  destruct (Z.geb_spec (Z.of_nat (length columns)) 10); [|lia].
  reflexivity.
Qed.

Lemma long_form_record_witness :
  parse_pool_line long_row
  = Some (mk_pool "ReadStage" "1" "2" "3" "4" "5" "6" "7" "8" "9").
Proof.
  apply (long_form_record long_row). vm_compute. lia.
Defined.

(** The first test of [parse_pool_line], on the number of words, rejects
    nothing that the second would take. *)
Lemma parse_rejects_iff (line : string) :
  parse_pool_line line = None
  <-> (length (Py.wide_split (Py.strip line)) < 6)%nat.
Proof.
  unfold parse_pool_line. split.
  - intros H.
    destruct (Z.ltb_spec (Z.of_nat (length (Py.wide_split (Py.strip line)))) 6)
      as [Hlt|Hge]; [lia|].
    destruct (Z.ltb_spec (Z.of_nat (length (Py.split_ws (Py.strip line)))) 6)
      as [Hp|Hp].
    + destruct (columns_le_parts line); lia.
    + destruct (Z.of_nat (length (Py.wide_split (Py.strip line))) >=? 10);
        discriminate.
  - intros Hn.
    destruct (Z.of_nat (length (Py.split_ws (Py.strip line))) <? 6);
      [reflexivity|].
    destruct (Z.ltb_spec (Z.of_nat (length (Py.wide_split (Py.strip line)))) 6);
      [reflexivity|lia].
Qed.

(** X6: [parse_pool_line] rejects a line exactly when the wide-gap split
    of the stripped line has fewer than 6 tokens; its first test, on the
    number of words, rejects nothing that the second would take. *)
Theorem parse_pool_line_none (line : string) :
  parse_pool_line line = None
  <-> (length (Py.wide_split (Py.strip line)) < 6)%nat.
Proof. apply parse_rejects_iff. Qed.

Lemma parse_pool_line_none_witness :
  (length (Py.wide_split (Py.strip status_line)) < 6)%nat.
Proof.
  apply (parse_pool_line_none status_line). vm_compute. reflexivity.
Defined.

Lemma trimmed_rev (cur : list ascii) : trimmed cur -> trimmed (rev cur).
Proof.
  unfold trimmed. intros [Hhead Hlast].
  destruct cur as [|c cur]; [contradiction|].
  split.
  - destruct (c :: cur) as [|d l _] using rev_ind; [contradiction|].
    rewrite last_snoc in Hlast. rewrite rev_app_distr. exact Hlast.
  - simpl. rewrite last_snoc. exact Hhead.
Qed.

Lemma trimmed_cons (c : ascii) (cur : list ascii) :
  Py.is_space c = false -> trimmed cur -> trimmed (c :: cur).
Proof.
  unfold trimmed. intros Hc [Hhead Hlast]. split; [exact Hc|].
  destruct cur as [|d cur]; [contradiction|].
  rewrite last_cons_cons. exact Hlast.
Qed.

Lemma trimmed_cons2 (c w : ascii) (cur : list ascii) :
  Py.is_space c = false -> trimmed cur -> trimmed (c :: w :: cur).
Proof.
  unfold trimmed. intros Hc [Hhead Hlast]. split; [exact Hc|].
  destruct cur as [|d cur]; [contradiction|].
  rewrite !last_cons_cons. exact Hlast.
Qed.

(** On text that does not end in whitespace, every token of the wide-gap
    scanner is trimmed, in each of its states. *)
Lemma wide_split_go_trimmed (t : list ascii) :
  ends_nonspace t ->
  (forall cur, trimmed cur ->
               Forall trimmed (Py.wide_split_go (Py.InToken cur) t))
  /\ (forall cur w, trimmed cur -> t <> [] ->
                    Forall trimmed (Py.wide_split_go (Py.OneSpace cur w) t))
  /\ (t <> [] -> Forall trimmed (Py.wide_split_go Py.InGap t)).
Proof.
  induction t as [|c t IH]; intros Hend.
  - repeat split; intros; try congruence.
    simpl. constructor; [apply trimmed_rev; assumption|constructor].
  - pose proof (ends_nonspace_tail' _ _ Hend) as Hend'.
    destruct (IH Hend') as (IH1 & IH2 & IH3).
    simpl. destruct (Py.is_space c) eqn:Hc.
    + pose proof (ends_nonspace_space_tail _ _ Hc Hend) as Hne.
      repeat split; intros.
      * apply IH2; assumption.
      * constructor; [apply trimmed_rev; assumption|apply IH3, Hne].
      * apply IH3, Hne.
    + repeat split; intros.
      * apply IH1, trimmed_cons; assumption.
      * apply IH1, trimmed_cons2; assumption.
      * apply IH1. split; simpl; exact Hc.
Qed.

Lemma strip_chars_trimmed (tok : list ascii) :
  trimmed tok -> Py.strip_chars tok = tok.
Proof.
  intros Ht. pose proof (trimmed_rev _ Ht) as [Hrev _].
  destruct Ht as [Hhead _].
  unfold Py.strip_chars, Py.rstrip_chars.
  rewrite (lstrip_chars_id tok).
  - rewrite lstrip_chars_id; [apply rev_involutive|].
    destruct (rev tok); [contradiction|exact Hrev].
  - destruct tok; [contradiction|exact Hhead].
Qed.

(** The columns of a line that is not blank are trimmed. *)
Lemma columns_trimmed (line : string) :
  Py.strip line <> "" ->
  Forall (fun column => exists tok, column = Py.str tok /\ trimmed tok)
    (Py.wide_split (Py.strip line)).
Proof.
  intros Hne. unfold Py.wide_split, Py.strip in *. rewrite chars_str.
  pose proof (strip_chars_ends (Py.chars line)) as Hend.
  destruct (strip_chars_head (Py.chars line)) as [Heq | (c & t & Heq & Hc)];
    rewrite Heq in *; [exfalso; apply Hne; reflexivity|].
  simpl. rewrite Hc.
  destruct (wide_split_go_trimmed t (ends_nonspace_tail' _ _ Hend))
    as (H1 & _).
  specialize (H1 [c]). 
  assert (Htok : Forall trimmed (Py.wide_split_go (Py.InToken [c]) t)).
  { apply H1. split; simpl; exact Hc. }
  clear H1. induction Htok as [|tok toks Ht _ IH]; simpl; constructor; eauto.
Qed.

Lemma clean_column (columns : list string) (k : nat) :
  Forall (fun column => exists tok, column = Py.str tok /\ trimmed tok) columns ->
  (k < length columns)%nat ->
  clean (Py.strip (col columns k)).
Proof.
  intros Hall Hk. unfold col.
  destruct (nth_lookup_or_length columns k "") as [Hin|]; [|lia].
  destruct (proj1 (Forall_lookup _ _) Hall _ _ Hin) as (tok & -> & Ht).
  unfold clean, Py.strip. rewrite !chars_str, !(strip_chars_trimmed _ Ht).
  split; [|reflexivity].
  destruct Ht as [Hhead _]. destruct tok; [contradiction|discriminate].
Qed.

(** X7: every field of a record that [parse_pool_line] returns is clean:
    it is not empty and has no whitespace at either end.  In particular
    the pool name is never empty. *)
Theorem parsed_fields_clean (line : string) (r : pool) :
  parse_pool_line line = Some r -> Forall clean (fields r).
Proof.
  intros H.
  assert (Hcols : (6 <= length (Py.wide_split (Py.strip line)))%nat).
  { destruct (Nat.lt_ge_cases (length (Py.wide_split (Py.strip line))) 6)
      as [Hlt|Hge]; [|exact Hge].
    apply parse_rejects_iff in Hlt. congruence. }
  assert (Hne : Py.strip line <> "").
  { intros Heq. rewrite Heq in Hcols. vm_compute in Hcols. lia. }
  pose proof (columns_trimmed line Hne) as Hall.
  assert (Hzero : clean "0") by (split; [discriminate|reflexivity]).
  unfold parse_pool_line in H.
  destruct (Z.of_nat (length (Py.split_ws (Py.strip line))) <? 6);
    [discriminate|].
  destruct (Z.of_nat (length (Py.wide_split (Py.strip line))) <? 6);
    [discriminate|].
  destruct (Z.geb_spec (Z.of_nat (length (Py.wide_split (Py.strip line)))) 10);
    injection H as <-; unfold fields; simpl;
    repeat first [apply Forall_nil; exact I
                 | apply Forall_cons; split
                 | exact Hzero
                 | apply clean_column; [exact Hall|lia]].
Qed.

Lemma parsed_fields_clean_witness : Forall clean (fields compaction).
Proof.
  apply (parsed_fields_clean compaction_row compaction).
  vm_compute. reflexivity.
Defined.

(** ** Collecting the data lines below the header *)

(** The loop of lines 129-145, started at the top [q] of a run [dls] of
    accepted lines that ends the file or is followed by a line that is
    not accepted, returns the records of the run in the order of the
    lines, behind what it started with. *)
Lemma collect_forward_run (lines : list string) (dls : list string) :
  forall (q : Z) (recs : list pool) (fuel : nat) (acc : list pool),
    0 <= q ->
    Forall2 accepted dls recs ->
    (forall k, 0 <= k < len dls -> get lines (q + k) = get dls k) ->
    (q + len dls = len lines \/ (q + len dls < len lines
       /\ data_line (get lines (q + len dls)) = None)) ->
    (length dls < fuel)%nat ->
    option_map snd (while fuel (fwd_cond lines) (fwd_body lines) (q, acc))
    = Some (acc ++ recs)%list.
Proof.
  induction dls as [|l dls IH]; intros q recs fuel acc Hq Hrecs Hget Hstop Hfuel.
  - apply Forall2_nil_inv_l in Hrecs as ->. rewrite app_nil_r.
    replace (q + len (@nil string)) with q in Hstop by (unfold len; simpl; lia).
    destruct fuel as [|fuel]; [lia|]. simpl.
    unfold fwd_cond at 1. simpl fst.
    destruct (Z.ltb_spec q (len lines)) as [Hlt|Hge]; [|reflexivity].
    destruct Hstop as [Heq|[_ Hstop]]; [lia|].
    rewrite Hstop. reflexivity.
  - apply Forall2_cons_inv_l in Hrecs as (r & recs' & Hr & Hrecs' & ->).
    pose proof (len_nonneg dls) as Hd.
    assert (Hlen : len (l :: dls) = len dls + 1) by (unfold len; simpl; lia).
    rewrite Hlen in *.
    destruct fuel as [|fuel]; [simpl in Hfuel; lia|]. simpl.
    unfold fwd_cond at 1. simpl fst.
    destruct (Z.ltb_spec q (len lines)) as [Hlt|Hge]; [|lia].
    specialize (Hget 0) as Hget0. replace (q + 0) with q in Hget0 by lia.
    rewrite Hget0 by lia. change (get (l :: dls) 0) with l.
    unfold accepted in Hr. rewrite Hr.
    replace (acc ++ r :: recs')%list with ((acc ++ [r]) ++ recs')%list
      by (rewrite <- app_assoc; reflexivity).
    apply IH; [lia|exact Hrecs'| | |simpl in Hfuel; lia].
    + intros k Hk. replace (q + 1 + k) with (q + (k + 1)) by lia.
      rewrite Hget by lia. unfold get.
      replace (Z.to_nat (k + 1)) with (S (Z.to_nat k)) by lia. reflexivity.
    + replace (q + 1 + len dls) with (q + (len dls + 1)) by lia. exact Hstop.
Qed.

Lemma get_elem_of (lines : list string) (j : Z) :
  0 <= j < len lines -> get lines j ∈ lines.
Proof.
  intros Hj. unfold get. apply list_elem_of_In, nth_In. unfold len in Hj. lia.
Qed.

Lemma extract_timestamp_wf (line ts : string) :
  extract_timestamp line = Some ts ->
  String.length ts = 23%nat /\ timestamp_shape ts.
Proof.
  unfold extract_timestamp, timestamp_shape. intros H.
  destruct (Py.search Py.timestamp_pattern (Py.chars line)) as [m|] eqn:Hs;
    [|discriminate].
  injection H as <-. rewrite chars_str, length_str.
  destruct (search_inv _ _ _ Hs) as (k & Hk & _).
  destruct (match_here_inv _ _ _ Hk) as (_ & Hlen & Hself).
  split; [rewrite Hlen; reflexivity|exact Hself].
Qed.

(** A timestamp that was resolved was extracted from a line of the file
    that has the marker. *)
Lemma resolve_timestamp_sound (lines : list string) (i : Z) (ts : string) :
  0 <= i ->
  resolve_timestamp lines i = Some (Some ts) ->
  timestamp_from lines ts.
Proof.
  intros Hi. unfold resolve_timestamp.
  assert (Hbefore : forall t, timestamp_before lines i = Some t ->
                              timestamp_from lines t).
  { unfold timestamp_before. intros t Ht.
    destruct (Z.gtb_spec i 0); [|discriminate].
    destruct (Py.contains marker (Py.strip (get lines (i - 1)))) eqn:Hm;
      [|discriminate].
    exists (get lines (i - 1)). repeat split; try assumption.
    apply get_elem_of. split; [lia|].
    destruct (Z_lt_le_dec (i - 1) (len lines)) as [Hin|Hout]; [exact Hin|].
    unfold get in Hm. rewrite nth_overflow in Hm by (unfold len in Hout; lia).
    vm_compute in Hm. discriminate. }
  destruct (negb (Py.truthy_opt (timestamp_before lines i))).
  - destruct (while (fuel_for lines) (ts_cond lines i) (ts_body lines)
                (i + 1, timestamp_before lines i)) as [r|] eqn:Hw;
      [|discriminate].
    simpl. intros H. injection H as H.
    revert ts H.
    apply (while_partial (ts_cond lines i) (ts_body lines)
             (fun st => 0 <= fst st
                        /\ forall t, snd st = Some t -> timestamp_from lines t)
             (fun st => forall t, snd st = Some t -> timestamp_from lines t))
      with (fuel := fuel_for lines) (s := (i + 1, timestamp_before lines i));
      [| | | |exact Hw].
    + intros s [_ Hs] _. exact Hs.
    + intros [j t] s' [Hj Ht] Hc Hb. simpl in Hj, Ht. unfold ts_body in Hb.
      destruct (Py.contains marker (Py.strip (get lines j))); [discriminate|].
      destruct (starts_entry (Py.strip (get lines j))); [discriminate|].
      injection Hb as <-. simpl. split; [lia|exact Ht].
    + intros [j t] s' [Hj Ht] Hc Hb. simpl in Hj, Ht. unfold ts_body in Hb.
      unfold ts_cond in Hc. simpl in Hc.
      apply andb_prop in Hc as [Hc _]. apply Z.ltb_lt in Hc.
      destruct (Py.contains marker (Py.strip (get lines j))) eqn:Hm.
      * injection Hb as <-. simpl. intros t' Ht'.
        exists (get lines j). repeat split; try assumption.
        apply get_elem_of. lia.
      * destruct (starts_entry (Py.strip (get lines j))); [|discriminate].
        injection Hb as <-. exact Ht.
    + simpl. split; [lia|exact Hbefore].
  - intros H. injection H as H. apply Hbefore. exact H.
Qed.

(** The records that were collected were read from lines of the file. *)
Lemma collect_pool_data_sound (lines : list string) (i : Z) (recs : list pool) :
  0 <= i < len lines ->
  collect_pool_data lines i = Some recs ->
  Forall (record_from lines) recs.
Proof.
  intros Hi. unfold collect_pool_data, collect_forward, collect_backward.
  destruct (while (fuel_for lines) (fwd_cond lines) (fwd_body lines) (i + 1, []))
    as [rf|] eqn:Hf; [|discriminate].
  assert (Hfwd : Forall (record_from lines) (snd rf)).
  { apply (while_partial (fwd_cond lines) (fwd_body lines)
             (fun st => 0 <= fst st /\ Forall (record_from lines) (snd st))
             (fun st => Forall (record_from lines) (snd st)))
      with (r := rf) in Hf; [exact Hf| | | |].
    - intros s [_ Hs] _. exact Hs.
    - intros [j acc] s' [Hj Hacc] Hc Hb. simpl in Hj, Hacc.
      unfold fwd_cond in Hc. simpl in Hc. apply Z.ltb_lt in Hc.
      unfold fwd_body in Hb.
      destruct (data_line (get lines j)) as [r|] eqn:Hd; [|discriminate].
      injection Hb as <-. simpl. split; [lia|].
      apply Forall_app. split; [exact Hacc|].
      constructor; [|constructor].
      exists (get lines j). split; [apply get_elem_of; lia|exact Hd].
    - intros [j acc] s' [Hj Hacc] Hc Hb. simpl in Hacc. unfold fwd_body in Hb.
      destruct (data_line (get lines j)); [discriminate|].
      injection Hb as <-. exact Hacc.
    - simpl. split; [lia|constructor]. }
  cbv beta iota delta [option_map]. destruct (snd rf) as [|r0 rs] eqn:Hsnd.
  - destruct (while (fuel_for lines) bwd_cond (bwd_body lines) (i - 1, []))
      as [rb|] eqn:Hb; [|discriminate].
    intros H. injection H as <-.
    apply (while_partial bwd_cond (bwd_body lines)
             (fun st => fst st < len lines /\ Forall (record_from lines) (snd st))
             (fun st => Forall (record_from lines) (snd st)))
      with (r := rb) in Hb; [exact Hb| | | |].
    + intros s [_ Hs] _. exact Hs.
    + intros [j acc] s' [Hj Hacc] Hc Hbody. simpl in Hj, Hacc.
      unfold bwd_cond in Hc. simpl in Hc. apply Z.geb_le in Hc.
      unfold bwd_body in Hbody.
      destruct (data_line (get lines j)) as [r|] eqn:Hd; [|discriminate].
      injection Hbody as <-. simpl. split; [lia|].
      constructor; [|exact Hacc].
      exists (get lines j). split; [apply get_elem_of; lia|exact Hd].
    + intros [j acc] s' [Hj Hacc] Hc Hbody. simpl in Hacc.
      unfold bwd_body in Hbody.
      destruct (data_line (get lines j)); [discriminate|].
      injection Hbody as <-. exact Hacc.
    + simpl. split; [lia|constructor].
  - intros H. injection H as <-. exact Hfwd.
Qed.

(** ** What a scan of a file returns *)

Lemma header_count_take_succ (lines : list string) (i : Z) :
  0 <= i < len lines ->
  header_count (take (Z.to_nat (i + 1)) lines)
  = (header_count (take (Z.to_nat i) lines)
     + if is_header (Py.strip (get lines i)) then 1 else 0)%nat.
Proof.
  intros Hi. unfold header_count, get.
  replace (Z.to_nat (i + 1)) with (S (Z.to_nat i)) by lia.
  destruct (nth_lookup_or_length lines (Z.to_nat i) "") as [Hin|Hout];
    [|unfold len in Hi; lia].
  rewrite (take_S_r _ _ _ Hin), filter_app, length_app, filter_cons, filter_nil.
  destruct (is_header (Py.strip (nth (Z.to_nat i) lines ""))) eqn:Hh.
  - rewrite decide_True by reflexivity. reflexivity.
  - rewrite decide_False by discriminate. reflexivity.
Qed.

(** One turn of the outer loop: what it adds was read from the file, and
    it adds at most one section or one diagnostic, and only at a header. *)
Lemma scan_body_spec (file_path : string) (lines : list string)
    (st : scan_state) :
  0 <= idx st < len lines ->
  exists secs es,
    scan_body file_path lines st
    = Some (Continue (mk_scan (idx st + 1) (sections st ++ secs)
                        (errs st ++ es)))
    /\ Forall (section_from lines) secs
    /\ (length secs + length es
        <= if is_header (Py.strip (get lines (idx st))) then 1 else 0)%nat
    /\ Forall (diagnostic_from file_path lines) es.
Proof.
  intros Hi. unfold scan_body.
  assert (Hmsg : is_header (Py.strip (get lines (idx st))) = true ->
                 Forall (diagnostic_from file_path lines)
                   [no_timestamp_message file_path (idx st)]).
  { intros Hh. constructor; [|constructor]. exists (idx st). auto. }
  assert (Hnone : forall e, (length e <= 1)%nat ->
            Forall (diagnostic_from file_path lines) e ->
            is_header (Py.strip (get lines (idx st))) = true ->
            exists secs es,
            Some (Continue (mk_scan (idx st + 1) (sections st) (errs st ++ e)))
            = Some (Continue (mk_scan (idx st + 1) (sections st ++ secs)
                                (errs st ++ es)))
            /\ Forall (section_from lines) secs
            /\ (length secs + length es
                <= if is_header (Py.strip (get lines (idx st))) then 1 else 0)%nat
            /\ Forall (diagnostic_from file_path lines) es).
  { intros e He Hd Hh. exists [], e. rewrite app_nil_r, Hh.
    split; [reflexivity|]. split; [constructor|]. split; [simpl; lia|exact Hd]. }
  destruct (is_header (Py.strip (get lines (idx st)))) eqn:Hh.
  - destruct (resolve_timestamp_total lines (idx st)) as (ts & Hts); [lia|].
    rewrite Hts.
    destruct ts as [ts|]; [|apply Hnone; [simpl; lia|auto|reflexivity]].
    destruct (Py.truthy ts); [|apply Hnone; [simpl; lia|auto|reflexivity]].
    destruct (collect_pool_data_total lines (idx st) Hi) as (recs & Hrecs).
    rewrite Hrecs.
    destruct recs as [|r recs].
    + specialize (Hnone [] ltac:(simpl; lia) ltac:(constructor) eq_refl).
      rewrite app_nil_r in Hnone. exact Hnone.
    + exists [(ts, r :: recs)], []. rewrite app_nil_r.
      split; [reflexivity|]. split; [|split; [simpl; lia|constructor]].
      constructor; [|constructor].
      pose proof (resolve_timestamp_sound lines (idx st) ts ltac:(lia) Hts)
        as Hfrom.
      destruct Hfrom as (l & Hl & Hm & Hx).
      destruct (extract_timestamp_wf _ _ Hx) as [Hlen Hshape].
      repeat split; simpl; try assumption.
      * exists l. auto.
      * apply (collect_pool_data_sound lines (idx st)); assumption.
  - exists [], []. rewrite !app_nil_r. split; [reflexivity|].
    split; [constructor|]. split; [simpl; lia|constructor].
Qed.

(** The scan of a file: it ends at the end of the file; its sections
    were read from the file; its diagnostics name header lines; there
    are no more sections and diagnostics together than header lines. *)
Lemma scan_lines_spec (file_path : string) (lines : list string) :
  exists r, scan_lines file_path lines = Some r
            /\ idx r = len lines
            /\ Forall (section_from lines) (sections r)
            /\ (length (sections r) + length (errs r)
                <= header_count lines)%nat
            /\ Forall (diagnostic_from file_path lines) (errs r).
Proof.
  unfold scan_lines.
  destruct (while_rule (scan_cond lines) (scan_body file_path lines)
           (fun st => 0 <= idx st <= len lines
                      /\ Forall (section_from lines) (sections st)
                      /\ (length (sections st) + length (errs st)
                          <= header_count (take (Z.to_nat (idx st)) lines))%nat
                      /\ Forall (diagnostic_from file_path lines) (errs st))
           (fun st => idx st = len lines
                      /\ Forall (section_from lines) (sections st)
                      /\ (length (sections st) + length (errs st)
                          <= header_count lines)%nat
                      /\ Forall (diagnostic_from file_path lines) (errs st))
           (fun st => Z.to_nat (len lines - idx st)))
    with (fuel := fuel_for lines) (s := mk_scan 0 [] [])
    as (r & Hr & Hpost).
  - intros st (Hi & Hs & Hn & He) Hc. unfold scan_cond in Hc.
    apply Z.ltb_ge in Hc.
    assert (Heq : idx st = len lines) by lia.
    split; [exact Heq|]. split; [exact Hs|]. split; [|exact He].
    rewrite Heq in Hn. unfold len in Hn. rewrite Nat2Z.id, firstn_all in Hn.
    exact Hn.
  - intros st (Hi & Hs & Hn & He) Hc. unfold scan_cond in Hc.
    apply Z.ltb_lt in Hc.
    destruct (scan_body_spec file_path lines st)
      as (secs & es & -> & Hfrom & Hle & Hdiag); [lia|].
    eexists; split; [reflexivity|]. simpl. repeat split; try lia.
    + apply Forall_app; split; assumption.
    + rewrite header_count_take_succ by lia. rewrite !length_app. lia.
    + apply Forall_app; split; assumption.
  - simpl. pose proof (len_nonneg lines).
    repeat split; try lia; constructor.
  - simpl. unfold fuel_for, len. lia.
  - eauto.
Qed.

(** X8: every section that [find_pool_statistics_sections] returns was
    read from the file: its timestamp has 23 characters in the form of
    the pattern and was extracted from a line of the file that has the
    marker, and each of its records is what a line of the file gives. *)
Theorem sections_read_from_file (fs : filesystem) (file_path content : string) :
  fs file_path = ReadOk content ->
  exists secs es,
    find_pool_statistics_sections fs file_path = Some (secs, es)
    /\ Forall (section_from (Py.readlines content)) secs.
Proof.
  intros Hfs. unfold find_pool_statistics_sections. rewrite Hfs.
  destruct (scan_lines_spec file_path (Py.readlines content))
    as (r & Hr & _ & Hfrom & _ & _).
  cbv zeta. rewrite Hr. eexists _, _. split; [reflexivity|exact Hfrom].
Qed.

Lemma sections_read_from_file_witness :
  exists secs es,
    find_pool_statistics_sections (one_file two_sections) "system.log"
    = Some (secs, es)
    /\ Forall (section_from (Py.readlines two_sections)) secs.
Proof.
  apply (sections_read_from_file (one_file two_sections) "system.log").
  reflexivity.
Defined.

(** X9: a file gives no more sections and diagnostics together than it
    has header lines: a header gives one section, or one diagnostic, or
    nothing, and other lines give nothing.  A file without a header line
    gives no section and no diagnostic. *)
Theorem sections_bounded_by_headers (fs : filesystem)
    (file_path content : string) :
  fs file_path = ReadOk content ->
  exists secs es,
    find_pool_statistics_sections fs file_path = Some (secs, es)
    /\ (length secs + length es <= header_count (Py.readlines content))%nat
    /\ (header_count (Py.readlines content) = 0%nat -> secs = [] /\ es = []).
Proof.
  intros Hfs. unfold find_pool_statistics_sections. rewrite Hfs.
  destruct (scan_lines_spec file_path (Py.readlines content))
    as (r & Hr & _ & _ & Hle & _).
  cbv zeta. rewrite Hr. eexists _, _. split; [reflexivity|].
  split; [exact Hle|]. simpl. intros H0.
  destruct (sections r), (errs r); simpl in Hle; try lia. auto.
Qed.

Lemma sections_bounded_by_headers_witness :
  exists secs es,
    find_pool_statistics_sections (one_file two_sections) "system.log"
    = Some (secs, es)
    /\ (length secs + length es <= header_count (Py.readlines two_sections))%nat
    /\ (header_count (Py.readlines two_sections) = 0%nat -> secs = [] /\ es = []).
Proof.
  apply (sections_bounded_by_headers (one_file two_sections) "system.log").
  reflexivity.
Defined.

(** X10: a header whose timestamp is resolved and that is followed at
    once by a run of N >= 1 accepted lines (the run ends the file, or the
    line after it is not accepted) gives exactly one section, with the N
    records of the run in the order of the lines; the lines above the
    header are not read for records. *)
Theorem forward_collection_order (file_path : string)
    (pre dls post : list string) (h : string) (recs : list pool)
    (ts : string) (st : scan_state) :
  let lines := (pre ++ h :: dls ++ post)%list in
  idx st = len pre ->
  is_header (Py.strip h) = true ->
  resolve_timestamp lines (idx st) = Some (Some ts) ->
  dls <> [] ->
  Forall2 accepted dls recs ->
  match post with
  | l :: _ => data_line l = None
  | [] => True
  end ->
  scan_body file_path lines st
  = Some (Continue
            (mk_scan (idx st + 1) (sections st ++ [(ts, recs)]) (errs st)))
  /\ length recs = length dls.
Proof.
  intros lines Hi Hh Hts Hne Hrecs Hpost.
  pose proof (len_nonneg pre) as Hp. pose proof (len_nonneg dls) as Hd.
  assert (Hget : get lines (idx st) = h).
  { unfold lines. rewrite Hi, get_app_r by lia.
    replace (len pre - len pre) with 0 by lia. reflexivity. }
  assert (Hlen : len lines = len pre + 1 + len dls + len post).
  { unfold lines. rewrite len_app. unfold len at 2. simpl length.
    rewrite length_app. unfold len. lia. }
  assert (Htruthy : Py.truthy ts = true).
  { destruct (resolve_timestamp_sound lines (idx st) ts ltac:(lia) Hts)
      as (l & _ & _ & Hx).
    apply (extract_timestamp_truthy _ _ Hx). }
  assert (Hfwd : collect_forward lines (idx st) = Some recs).
  { unfold collect_forward. rewrite Hi.
    rewrite <- (app_nil_l recs) at 1.
    apply collect_forward_run with (dls := dls); try assumption; try lia.
    - intros k Hk. unfold lines. rewrite get_app_r by lia.
      replace (len pre + 1 + k - len pre) with (k + 1) by lia.
      unfold get at 1.
      replace (Z.to_nat (k + 1)) with (S (Z.to_nat k)) by lia. simpl.
      rewrite app_nth1 by (unfold len in Hk; lia). reflexivity.
    - pose proof (len_nonneg post) as Hq.
      destruct post as [|l post].
      + left. unfold len in *. simpl length in *. lia.
      + right. split.
        * unfold len in *. simpl length in *. lia.
        * unfold lines. rewrite get_app_r by lia.
          replace (len pre + 1 + len dls - len pre) with (len dls + 1) by lia.
          unfold get.
          replace (Z.to_nat (len dls + 1)) with (S (length dls))
            by (unfold len; lia).
          simpl. rewrite app_nth2 by lia.
          replace (length dls - length dls)%nat with 0%nat by lia.
          exact Hpost.
    - unfold fuel_for, lines. rewrite length_app. simpl.
      rewrite length_app. lia. }
  split; [|symmetry; apply (Forall2_length _ _ _ Hrecs)].
  unfold scan_body. rewrite Hget, Hh, Hts, Htruthy.
  unfold collect_pool_data. rewrite Hfwd.
  destruct recs as [|r recs]; [|reflexivity].
  apply Forall2_nil_inv_r in Hrecs. congruence.
Qed.

Lemma forward_collection_order_witness :
  scan_body "system.log" (Py.readlines two_sections) (mk_scan 1 [] [])
  = Some (Continue
            (mk_scan 2 [(sample_timestamp, [compaction; gossip])] []))
  /\ length [compaction; gossip] = 2%nat.
Proof.
  apply (forward_collection_order "system.log"
           (Py.readlines (unlines [status_line]))
           (Py.readlines (unlines [compaction_row; gossip_row]))
           (Py.readlines (unlines [""; status_line; header_line; compaction_row]))
           (header_line ++ String Py.LF "")
           [compaction; gossip] sample_timestamp (mk_scan 1 [] [])).
  - reflexivity.
  - vm_compute. reflexivity.
  - vm_compute. reflexivity.
  - discriminate.
  - repeat constructor; vm_compute; reflexivity.
  - vm_compute. reflexivity.
Defined.

(** ** More on the Record Filter *)

Lemma filter_pools_spec (pool_data : list pool)
    (target_pools : list string) (r : pool) :
  target_pools <> [] ->
  (r ∈ filter_pools pool_data target_pools
   <-> r ∈ pool_data
       /\ exists target, target ∈ target_pools
                         /\ Py.lower target = Py.lower (pool_name r)).
Proof.
  intros Hne. unfold filter_pools.
  destruct target_pools as [|t ts]; [congruence|].
  rewrite list_elem_of_filter. split.
  - intros [Hin Hr]. split; [exact Hr|].
    apply list_elem_of_In, in_map_iff in Hin as (x & Hx & Hin).
    exists x. split; [apply list_elem_of_In; exact Hin|exact Hx].
  - intros [Hr (x & Hin & Hx)]. split; [|exact Hr].
    apply list_elem_of_In, in_map_iff. exists x.
    split; [exact Hx|apply list_elem_of_In; exact Hin].
Qed.

(** X11: with a target list that is not empty, the Record Filter keeps
    exactly the records whose name is equal to a target when both are
    put in lower case. *)
Theorem filter_pools_elem_of (pool_data : list pool)
    (target_pools : list string) (r : pool) :
  target_pools <> [] ->
  (r ∈ filter_pools pool_data target_pools
   <-> r ∈ pool_data
       /\ exists target, target ∈ target_pools
                         /\ Py.lower target = Py.lower (pool_name r)).
Proof. apply filter_pools_spec. Qed.

Lemma filter_pools_elem_of_witness :
  gossip ∈ filter_pools [compaction; gossip] ["GOSSIPSTAGE"]
  <-> gossip ∈ [compaction; gossip]
      /\ exists target, target ∈ ["GOSSIPSTAGE"]
                        /\ Py.lower target = Py.lower (pool_name gossip).
Proof.
  apply (filter_pools_elem_of [compaction; gossip] ["GOSSIPSTAGE"] gossip).
  discriminate.
Defined.

(** X12: the case of the targets does not matter, and the filter works
    record by record: two target lists that are equal in lower case give
    the same result, and the result on a concatenation is the
    concatenation of the results. *)
Theorem filter_pools_case_and_append (l1 l2 : list pool)
    (targets targets' : list string) :
  map Py.lower targets = map Py.lower targets' ->
  filter_pools l1 targets = filter_pools l1 targets'
  /\ filter_pools (l1 ++ l2) targets
     = (filter_pools l1 targets ++ filter_pools l2 targets)%list.
Proof.
  intros Heq. unfold filter_pools. split.
  - destruct targets as [|t ts], targets' as [|t' ts']; try discriminate;
      [reflexivity|].
    rewrite Heq. reflexivity.
  - destruct targets; [reflexivity|]. apply filter_app.
Qed.

Lemma filter_pools_case_and_append_witness :
  filter_pools [gossip] ["GossipStage"] = filter_pools [gossip] ["GOSSIPSTAGE"]
  /\ filter_pools ([gossip] ++ [compaction]) ["GossipStage"]
     = (filter_pools [gossip] ["GossipStage"]
          ++ filter_pools [compaction] ["GossipStage"])%list.
Proof.
  apply (filter_pools_case_and_append [gossip] [compaction]
           ["GossipStage"] ["GOSSIPSTAGE"]).
  vm_compute. reflexivity.
Defined.

(** ** The command line *)

(** X13: the items of a comma-separated option are clean: blank items
    are dropped and the others are stripped, so no target pool and no
    requested metric is empty or has whitespace around it. *)
Theorem comma_list_clean (s : string) : Forall clean (comma_list s).
Proof.
  unfold comma_list. apply Forall_forall. intros x Hx.
  apply list_elem_of_In, in_map_iff in Hx as (y & <- & Hy).
  apply filter_In in Hy as [_ Hy].
  unfold clean. split; [|apply strip_idempotent].
  unfold Py.truthy in Hy. intros Heq. rewrite Heq in Hy. discriminate.
Qed.

(** ** More on [main] *)

Lemma collect_sections_app (fs : filesystem) (l1 l2 : list string)
    (s1 s2 : list section) (e1 e2 : list string) :
  collect_sections fs l1 = Some (s1, e1) ->
  collect_sections fs l2 = Some (s2, e2) ->
  collect_sections fs (l1 ++ l2) = Some ((s1 ++ s2)%list, (e1 ++ e2)%list).
Proof.
  revert s1 e1. induction l1 as [|p l1 IH]; intros s1 e1 H1 H2; simpl in *.
  - injection H1 as <- <-. exact H2.
  - destruct (find_pool_statistics_sections fs p) as [[sp ep]|]; [|discriminate].
    destruct (collect_sections fs l1) as [[sr er]|]; [|discriminate].
    injection H1 as <- <-. rewrite (IH _ _ eq_refl H2), !app_assoc.
    reflexivity.
Qed.

(** X14: the files are scanned one by one and their sections and
    diagnostics are put together in the order of the paths; a file that
    cannot be read gives no section and the one line that names it. *)
Theorem collect_sections_in_order (fs : filesystem) (l1 l2 : list string)
    (s1 s2 : list section) (e1 e2 : list string) (p e : string) :
  collect_sections fs l1 = Some (s1, e1) ->
  collect_sections fs l2 = Some (s2, e2) ->
  fs p = ReadError e ->
  collect_sections fs (l1 ++ p :: l2)
  = Some ((s1 ++ s2)%list,
          (e1 ++ ("Error reading file " +:+ p +:+ ": " +:+ e) :: e2)%list).
Proof.
  intros H1 H2 Hp.
  apply (collect_sections_app fs l1 (p :: l2) s1 s2 e1 _ H1).
  simpl. unfold find_pool_statistics_sections at 1. rewrite Hp, H2.
  reflexivity.
Qed.

Lemma collect_sections_in_order_witness :
  collect_sections (one_file two_sections) ([] ++ "missing.log" :: ["system.log"])
  = Some (([] ++ [(sample_timestamp, [compaction; gossip]);
                  (sample_timestamp, [compaction])])%list,
          ([] ++ ("Error reading file " +:+ "missing.log" +:+ ": "
                  +:+ "[Errno 2] No such file or directory") :: [])%list).
Proof.
  apply collect_sections_in_order.
  - reflexivity.
  - vm_compute. reflexivity.
  - reflexivity.
Defined.

Lemma collect_sections_no_header (fs : filesystem) (file_paths : list string) :
  (forall p content, p ∈ file_paths -> fs p = ReadOk content ->
                     header_count (Py.readlines content) = 0%nat) ->
  collect_sections fs file_paths = Some ([], read_errors fs file_paths).
Proof.
  induction file_paths as [|p rest IH]; intros H; simpl; [reflexivity|].
  rewrite IH by (intros q c Hq; apply H; right; exact Hq).
  unfold find_pool_statistics_sections.
  destruct (fs p) as [e|content] eqn:Hp; [reflexivity|].
  destruct (scan_lines_spec p (Py.readlines content))
    as (r & Hr & _ & _ & Hle & _).
  cbv zeta. rewrite Hr. simpl.
  rewrite (H p content) in Hle by (try left; assumption).
  destruct (sections r), (errs r); simpl in Hle; try lia. reflexivity.
Qed.

(** X15: when no file that can be read has a header line, the run ends
    with status 1, opens no output file, and prints the lines of the
    files that cannot be read and then that nothing was found. *)
Theorem no_header_no_output (fs : filesystem) (now : string) (a : args) :
  invalid_columns_of a = [] ->
  (forall p content, p ∈ files a -> fs p = ReadOk content ->
                     header_count (Py.readlines content) = 0%nat) ->
  main fs now a
  = Some (mk_outcome 1
            (read_errors fs (files a)
               ++ ["No pool statistics found in the provided files."])
            None).
Proof.
  intros Hinv Hnone. unfold main.
  rewrite Hinv, (collect_sections_no_header _ _ Hnone). reflexivity.
Qed.

Lemma no_header_no_output_witness :
  main (one_file (unlines [status_line; compaction_row])) "20251003_100832"
    (mk_args ["missing.log"; "system.log"] None None None)
  = Some (mk_outcome 1
            ["Error reading file missing.log: [Errno 2] No such file or directory";
             "No pool statistics found in the provided files."]
            None).
Proof.
  apply (no_header_no_output (one_file (unlines [status_line; compaction_row]))
           "20251003_100832"
           (mk_args ["missing.log"; "system.log"] None None None)).
  - reflexivity.
  - intros p content Hp Hfs.
    apply elem_of_cons in Hp as [->|Hp]; [discriminate|].
    apply list_elem_of_singleton in Hp as ->.
    injection Hfs as <-. vm_compute. reflexivity.
Defined.

Lemma length_flat_map_const {A B} (f : A -> list B) (l : list A) (k : nat) :
  (forall x, length (f x) = k) -> length (flat_map f l) = (length l * k)%nat.
Proof.
  intros Hf. induction l as [|x l IH]; simpl; [reflexivity|].
  rewrite length_app, Hf, IH. reflexivity.
Qed.

Lemma row_rows_width (selected_columns : list string) (secs : list section) :
  Forall (fun row => length row = length (row_header selected_columns))
    (row_rows selected_columns secs).
Proof.
  unfold row_rows, row_header. apply Forall_forall. intros row Hrow.
  apply list_elem_of_In, in_flat_map in Hrow as ([ts recs] & _ & Hrow).
  apply in_map_iff in Hrow as (r & <- & _).
  simpl. rewrite !length_map. reflexivity.
Qed.

Lemma pivot_rows_width (selected_columns target_pools names : list string)
    (secs : list section) :
  Forall (fun row => length row = length (pivot_header selected_columns names))
    (map (pivot_row selected_columns target_pools names) secs).
Proof.
  apply Forall_forall. intros row Hrow.
  apply list_elem_of_In, in_map_iff in Hrow as ([ts recs] & <- & _).
  unfold pivot_row, pivot_header. simpl. f_equal.
  rewrite (length_flat_map_const _ _ (length selected_columns))
    by (intros; apply pivot_cells_length).
  rewrite (length_flat_map_const _ _ (length selected_columns))
    by (intros; apply length_map).
  reflexivity.
Qed.

(** X17: the table that is written is rectangular: in row mode and in
    pivot mode alike, every data row has as many cells as the header
    row. *)
Theorem output_rectangular (fs : filesystem) (now : string) (a : args)
    (o : outcome) (path : string) (header : list string)
    (rows : list (list string)) :
  main fs now a = Some o ->
  out_file o = Some (path, header :: rows) ->
  Forall (fun row => length row = length header) rows.
Proof.
  unfold main. intros Hmain Hfile.
  destruct (invalid_columns_of a).
  2: { injection Hmain as <-. discriminate. }
  destruct (collect_sections fs (files a)) as [[secs es]|]; [|discriminate].
  destruct secs as [|sec secs].
  { injection Hmain as <-. discriminate. }
  destruct (open_output now a) as [p e_open].
  destruct (open_for_writing fs p).
  { injection Hmain as <-. discriminate. }
  destruct (target_pools_of a) as [|t ts].
  { injection Hmain as <-. cbn [out_file] in Hfile.
    injection Hfile as _ <- <-.
    apply (row_rows_width (selected_columns_of a) (sec :: secs)). }
  destruct (bool_decide _).
  - injection Hmain as <-. discriminate.
  - injection Hmain as <-. cbn [out_file] in Hfile.
    injection Hfile as _ <- <-.
    apply (pivot_rows_width (selected_columns_of a) (t :: ts)
             (sorted (matched_names (t :: ts) (sec :: secs))) (sec :: secs)).
Qed.

Lemma output_rectangular_witness :
  Forall (fun row => length row = length ["timestamp"; "GossipStage-Active";
                                          "GossipStage-Completed"])
    [[sample_timestamp; "1"; "77"]; [sample_timestamp; "N/A"; "N/A"]].
Proof.
  apply (output_rectangular (one_file two_sections) "20251003_100832" pivot_args
           (mk_outcome 0 []
              (Some ("out.csv",
                     [["timestamp"; "GossipStage-Active"; "GossipStage-Completed"];
                      [sample_timestamp; "1"; "77"];
                      [sample_timestamp; "N/A"; "N/A"]])))
           "out.csv").
  - vm_compute. reflexivity.
  - reflexivity.
Defined.

(** X18: a requested metric that is not one of the nine names ends the
    run before any file is read: the status is 1, no output file is
    opened, standard error has the two lines on the metrics and nothing
    on the files, and the result is the same whatever the file system
    holds. *)
Theorem invalid_metric_stops_early (fs fs' : filesystem) (now now' : string)
    (a : args) (m c : string) :
  metrics a = Some m -> Py.truthy m = true ->
  c ∈ comma_list m -> c ∉ valid_columns ->
  main fs now a
  = Some (mk_outcome 1
            ["Error: Invalid columns specified: "
               +:+ Py.join ", " (invalid_columns_of a);
             "Valid columns are: Active, Pending, Backpressure, Delayed, Shared, Stolen, Completed, Blocked, All_Time_Blocked"]
            None)
  /\ main fs now a = main fs' now' a
  /\ c ∈ invalid_columns_of a.
Proof.
  intros Hm Htruthy Hc Hinvalid.
  assert (Hin : c ∈ invalid_columns_of a).
  { unfold invalid_columns_of, requested_columns_of. rewrite Hm, Htruthy.
    apply list_elem_of_In, filter_In. split; [apply list_elem_of_In; exact Hc|].
    rewrite bool_decide_eq_false_2 by exact Hinvalid. reflexivity. }
  unfold main.
  destruct (invalid_columns_of a) as [|x l] eqn:Hl; [inversion Hin|].
  repeat split; try reflexivity. exact Hin.
Qed.

Lemma invalid_metric_stops_early_witness :
  main (one_file two_sections) "20251003_100832"
    (mk_args ["system.log"] None (Some "Active,Foo") None)
  = Some (mk_outcome 1
            ["Error: Invalid columns specified: Foo";
             "Valid columns are: Active, Pending, Backpressure, Delayed, Shared, Stolen, Completed, Blocked, All_Time_Blocked"]
            None)
  /\ main (one_file two_sections) "20251003_100832"
       (mk_args ["system.log"] None (Some "Active,Foo") None)
     = main (one_file "") ""
         (mk_args ["system.log"] None (Some "Active,Foo") None)
  /\ "Foo" ∈ invalid_columns_of
               (mk_args ["system.log"] None (Some "Active,Foo") None).
Proof.
  apply (invalid_metric_stops_early (one_file two_sections) (one_file "")
           "20251003_100832" ""
           (mk_args ["system.log"] None (Some "Active,Foo") None)
           "Active,Foo" "Foo").
  - reflexivity.
  - reflexivity.
  - vm_compute. right. left.
  - intros H. vm_compute in H.
    repeat (apply elem_of_cons in H as [H|H]; [discriminate|]).
    inversion H.
Defined.

(** X19: in row mode, when the output file opens, the file holds the
    header timestamp, pool_name and the selected metrics in lower case,
    and then one row per record, in the order of the sections and of the
    records in them: the section's timestamp, the pool name and the
    selected metrics.  There are as many data rows as records; and when
    no metric is selected a row is the timestamp followed by the ten
    fields of the record.  When the output file does not open, the run
    ends with status 1, the text of the exception last on standard
    error, and no row written. *)
Theorem row_mode_output (fs : filesystem) (now : string) (a : args)
    (secs : list section) (e : list string) :
  invalid_columns_of a = [] ->
  collect_sections fs (files a) = Some (secs, e) ->
  secs <> [] ->
  target_pools_of a = [] ->
  (open_for_writing fs (fst (open_output now a)) = None ->
   exists rows,
     main fs now a
     = Some (mk_outcome 0 (e ++ snd (open_output now a))
               (Some (fst (open_output now a),
                      ("timestamp" :: "pool_name"
                         :: map Py.lower (selected_columns_of a))
                        :: rows)))
     /\ rows
        = flat_map
            (fun sec : section =>
               map (fun r =>
                      fst sec :: pool_name r
                        :: map (fun col => metric col r) (selected_columns_of a))
                 (snd sec))
            secs
     /\ length rows = record_count secs
     /\ (requested_columns_of a = None ->
         rows = flat_map
                  (fun sec : section => map (fun r => fst sec :: fields r) (snd sec))
                  secs))
  /\ (forall exception,
        open_for_writing fs (fst (open_output now a)) = Some exception ->
        main fs now a = Some (mk_outcome 1 (e ++ [exception]) None)).
Proof.
  intros Hinv Hsecs Hne Htargets.
  assert (Hrows : row_rows (selected_columns_of a) secs
                  = flat_map
                      (fun sec : section =>
                         map (fun r =>
                                fst sec :: pool_name r
                                  :: map (fun col => metric col r)
                                       (selected_columns_of a))
                           (snd sec))
                      secs).
  { unfold row_rows. apply flat_map_ext. intros [ts recs]. reflexivity. }
  split.
  - intros Hopen. exists (row_rows (selected_columns_of a) secs).
    split; [|split; [exact Hrows|split]].
    + unfold main. rewrite Hinv, Hsecs, Htargets.
      destruct secs as [|sec secs]; [congruence|].
      destruct (open_output now a) as [path e_open]. simpl fst in *.
      rewrite Hopen. reflexivity.
    + rewrite Hrows. unfold record_count. clear.
      induction secs as [|sec secs IH]; simpl; [reflexivity|].
      rewrite length_app, length_map, IH. reflexivity.
    + intros Hreq. rewrite Hrows. unfold selected_columns_of. rewrite Hreq.
      apply flat_map_ext. intros sec. apply map_ext. intros r. reflexivity.
  - intros exception Hopen. unfold main. rewrite Hinv, Hsecs.
    destruct secs as [|sec secs]; [congruence|].
    destruct (open_output now a) as [path e_open]. simpl fst in *.
    rewrite Hopen. reflexivity.
Qed.

Lemma row_mode_output_witness :
  (exists rows,
     main (one_file two_sections) "20251003_100832"
       (mk_args ["system.log"] None None None)
     = Some (mk_outcome 0
               ["Output will be saved to: pool_metrics_20251003_100832.csv"]
               (Some ("pool_metrics_20251003_100832.csv",
                      ("timestamp" :: "pool_name" :: map Py.lower valid_columns)
                        :: rows)))
     /\ rows = [sample_timestamp :: fields compaction;
                sample_timestamp :: fields gossip;
                sample_timestamp :: fields compaction])
  /\ main (no_output_dir two_sections) "20251003_100832"
       (mk_args ["system.log"] None None (Some "missing/out.csv"))
     = Some (mk_outcome 1
               ["FileNotFoundError: [Errno 2] No such file or directory: 'missing/out.csv'"]
               None).
Proof.
  split.
  - destruct (row_mode_output (one_file two_sections) "20251003_100832"
                (mk_args ["system.log"] None None None)
                [(sample_timestamp, [compaction; gossip]);
                 (sample_timestamp, [compaction])] [])
      as [Hopen _].
    + reflexivity.
    + vm_compute. reflexivity.
    + discriminate.
    + reflexivity.
    + destruct (Hopen eq_refl) as (rows & Hmain & _ & _ & Hdefault).
      exists rows. split; [exact Hmain|]. apply Hdefault. reflexivity.
  - destruct (row_mode_output (no_output_dir two_sections) "20251003_100832"
                (mk_args ["system.log"] None None (Some "missing/out.csv"))
                [(sample_timestamp, [compaction; gossip]);
                 (sample_timestamp, [compaction])] [])
      as [_ Hfail].
    + reflexivity.
    + vm_compute. reflexivity.
    + discriminate.
    + reflexivity.
    + apply Hfail. reflexivity.
Defined.

(** X20: every diagnostic that the scan of a file prints is the message
    for a header line of that file, and carries the one-based number of
    that line and the path. *)
Theorem diagnostics_name_headers (fs : filesystem)
    (file_path content : string) :
  fs file_path = ReadOk content ->
  exists secs es,
    find_pool_statistics_sections fs file_path = Some (secs, es)
    /\ Forall (diagnostic_from file_path (Py.readlines content)) es.
Proof.
  intros Hfs. unfold find_pool_statistics_sections. rewrite Hfs.
  destruct (scan_lines_spec file_path (Py.readlines content))
    as (r & Hr & _ & _ & _ & Hdiag).
  cbv zeta. rewrite Hr. eexists _, _. split; [reflexivity|exact Hdiag].
Qed.

Lemma diagnostics_name_headers_witness :
  exists secs es,
    find_pool_statistics_sections (one_file bare_header) "system.log"
    = Some (secs, es)
    /\ Forall (diagnostic_from "system.log" (Py.readlines bare_header)) es.
Proof.
  apply (diagnostics_name_headers (one_file bare_header) "system.log").
  reflexivity.
Defined.

(** X21: in pivot mode only pools that were asked for get columns: every
    matched name is the name of a record of some section and is equal to
    a target when both are put in lower case. *)
Theorem matched_names_are_targets (target_pools : list string)
    (secs : list section) (name : string) :
  target_pools <> [] ->
  name ∈ matched_names target_pools secs ->
  (exists sec r, sec ∈ secs /\ r ∈ snd sec /\ pool_name r = name)
  /\ exists target, target ∈ target_pools
                    /\ Py.lower target = Py.lower name.
Proof.
  intros Hne Hin.
  apply elem_of_matched_names in Hin as (sec & r & Hsec & Hr & <-).
  apply (filter_pools_spec _ _ _ Hne) in Hr as [Hr Ht].
  split; [|exact Ht]. eauto.
Qed.

Lemma matched_names_are_targets_witness :
  (exists sec r, sec ∈ [(sample_timestamp, [compaction; gossip])]
                 /\ r ∈ snd sec /\ pool_name r = "GossipStage")
  /\ exists target, target ∈ ["gossipstage"]
                    /\ Py.lower target = Py.lower "GossipStage".
Proof.
  apply (matched_names_are_targets ["gossipstage"]
           [(sample_timestamp, [compaction; gossip])] "GossipStage").
  - discriminate.
  - apply elem_of_matched_names.
    exists (sample_timestamp, [compaction; gossip]), gossip.
    split; [left|]. split; [|reflexivity].
    assert (Hne : ["gossipstage"] <> []) by discriminate.
    apply (filter_pools_spec _ _ _ Hne).
    split; [right; left|]. exists "gossipstage". split; [left|reflexivity].
Defined.
